(** * College basketball score scraper: a shallow embedding in Rocq

    The development embeds the three Python modules of the scraper:
    - [final_scores_scraper_auto.py]: [safe_get], [scrape_day],
      [append_to_master], [get_existing_dates], [run_auto_scrape];
    - [rescrape_missed_days.py]: [find_failed_days], [rescrape_failed_days];
    - [rebuild_scores_25yrs.py]: [parse_day] and [scrape_range].

    HTML is represented by the values the code reads out of the parsed
    document through its CSS selectors (a "soup view"); the network, the
    random generator and the log-file lock are parameters of the model. *)

From Stdlib Require Import String Ascii List ZArith QArith Bool Lia Sorting.Sorted.
Import ListNotations.

Open Scope string_scope.
Open Scope list_scope.
Open Scope Z_scope.

Infix "^^" := String.append (at level 60, right associativity).

(* ------------------------------------------------------------------ *)
(** ** Python string helpers *)

(** [sub in s] on Python strings (UTF-8 bytes here: for well-formed
    UTF-8, byte substring and code-point substring agree). *)
Fixpoint contains (sub s : string) : bool :=
  String.prefix sub s ||
  match s with
  | EmptyString => false
  | String _ s' => contains sub s'
  end.

Definition is_digit (c : ascii) : bool :=
  (48 <=? Z.of_nat (nat_of_ascii c)) && (Z.of_nat (nat_of_ascii c) <=? 57).

Definition digit_val (c : ascii) : Z := Z.of_nat (nat_of_ascii c) - 48.

Definition is_ws (c : ascii) : bool :=
  match nat_of_ascii c with
  | 32 | 9 | 10 | 11 | 12 | 13 => true
  | _ => false
  end%nat.

Fixpoint lstrip_by (p : ascii -> bool) (s : string) : string :=
  match s with
  | EmptyString => EmptyString
  | String c r => if p c then lstrip_by p r else s
  end.

Fixpoint rev_str (s : string) : string :=
  match s with
  | EmptyString => EmptyString
  | String c r => rev_str r ^^ String c EmptyString
  end.

(** [s.strip(chars)]: drop the characters satisfying [p] at both ends. *)
Definition strip_by (p : ascii -> bool) (s : string) : string :=
  rev_str (lstrip_by p (rev_str (lstrip_by p s))).

(** Digits of Python's [int()] literal syntax: at least one digit, single
    underscores allowed between digits. *)
Fixpoint int_digits (s : string) (acc : Z) (prev_digit : bool) : option Z :=
  match s with
  | EmptyString => if prev_digit then Some acc else None
  | String c r =>
      if is_digit c then int_digits r (acc * 10 + digit_val c) true
      else if Ascii.eqb c "_"%char && prev_digit then int_digits r acc false
      else None
  end.

(** [int(s)] on a string; [None] is the [ValueError]. *)
Definition py_int (s : string) : option Z :=
  match strip_by is_ws s with
  | String c r =>
      if Ascii.eqb c "+"%char then int_digits r 0 false
      else if Ascii.eqb c "-"%char then option_map Z.opp (int_digits r 0 false)
      else int_digits (String c r) 0 false
  | EmptyString => None
  end.

(** [str(n)] for a non-negative integer below 10^20. *)
Fixpoint dec_aux (fuel : nat) (n : Z) (acc : string) : string :=
  match fuel with
  | O => acc
  | S f =>
      let acc' := String (ascii_of_nat (Z.to_nat (48 + n mod 10))) acc in
      if n <? 10 then acc' else dec_aux f (n / 10) acc'
  end.

Definition show_Z (n : Z) : string :=
  if n <? 0 then "-" ^^ dec_aux 20 (- n) "" else dec_aux 20 n "".

Fixpoint zeros (k : nat) : string :=
  match k with O => "" | S k' => "0" ^^ zeros k' end.

(** [f"{n:0wd}"] for a non-negative [n]. *)
Definition pad (w : nat) (n : Z) : string :=
  let s := show_Z n in zeros (w - String.length s) ^^ s.


Definition nl : string := String (ascii_of_nat 10) EmptyString.

(** ASCII part of [str.lower()]. *)
Definition lower_char (c : ascii) : ascii :=
  let n := nat_of_ascii c in
  if (65 <=? n)%nat && (n <=? 90)%nat then ascii_of_nat (n + 32) else c.

Fixpoint lower (s : string) : string :=
  match s with
  | EmptyString => EmptyString
  | String c r => String (lower_char c) (lower r)
  end.

Fixpoint last_opt {A} (l : list A) : option A :=
  match l with
  | [] => None
  | [x] => Some x
  | _ :: r => last_opt r
  end.

Definition hd_opt {A} (l : list A) : option A :=
  match l with [] => None | x :: _ => Some x end.

(* ------------------------------------------------------------------ *)
(** ** Calendar days ([datetime] values at midnight) *)

Record date := mkDate { year : Z; month : Z; day : Z }.

Definition is_leap (y : Z) : bool :=
  (y mod 4 =? 0) && (negb (y mod 100 =? 0) || (y mod 400 =? 0)).

Definition days_in_month (y m : Z) : Z :=
  if m =? 2 then (if is_leap y then 29 else 28)
  else if existsb (Z.eqb m) [4; 6; 9; 11] then 30 else 31.

(** [d + timedelta(days=1)]. *)
Definition next_day (d : date) : date :=
  if day d <? days_in_month (year d) (month d)
  then mkDate (year d) (month d) (day d + 1)
  else if month d <? 12 then mkDate (year d) (month d + 1) 1
  else mkDate (year d + 1) 1 1.

(** [d.toordinal()]. *)
Definition days_before_month (y m : Z) : Z :=
  fold_left (fun acc k => acc + days_in_month y k)
            (map Z.of_nat (seq 1 (Z.to_nat (m - 1)))) 0.

Definition toordinal (d : date) : Z :=
  let y1 := year d - 1 in
  y1 * 365 + y1 / 4 - y1 / 100 + y1 / 400
  + days_before_month (year d) (month d) + day d.

(** [d1 <= d2] on datetimes. *)
Definition date_leb (d1 d2 : date) : bool :=
  (year d1 <? year d2)
  || ((year d1 =? year d2)
      && ((month d1 <? month d2) || ((month d1 =? month d2) && (day d1 <=? day d2)))).

(** The days visited by [while current <= end_date: ...; current += 1 day];
    [(end - start).days + 1] iterations are enough. *)
Fixpoint range_from (cur end_ : date) (fuel : nat) : list date :=
  match fuel with
  | O => []
  | S f => if date_leb cur end_ then cur :: range_from (next_day cur) end_ f else []
  end.

Definition range_days (start end_ : date) : list date :=
  range_from start end_ (Z.to_nat (toordinal end_ - toordinal start + 1)).

(** [d.strftime("%Y-%m-%d")]. *)
Definition date_str (d : date) : string :=
  pad 4 (year d) ^^ "-" ^^ pad 2 (month d) ^^ "-" ^^ pad 2 (day d).


(* ------------------------------------------------------------------ *)
(** ** Pages as the scraper's selectors see them *)

(** A [td.gamelink] cell: the [href] of its first [<a>] (assumed to carry
    an [href] attribute) and the cell's [class] list. *)
Record Box := mkBox { box_href : option string; box_classes : list string }.

(** A [tr] of a [table.teams]: stripped text of its first [<a>] and of its
    first [td.right], when present. *)
Record TeamRow := mkTeamRow {
  tr_link_text : option string;
  tr_right_text : option string }.

(** A [div.game_summary.gender-m] block: its [table.teams] tables (rows in
    order) and the [href]s of the detail links it carries. *)
Record Summary := mkSummary {
  sum_tables : list (list TeamRow);
  sum_links : list string }.

(** [BeautifulSoup(resp.text, "html.parser")], through the selectors used
    by [scrape_day] on the scoreboard page and on a game page. *)
Record Soup := mkSoup {
  gamelinks : list Box;                       (* td.gamelink *)
  summaries_m : list Summary;                 (* div.game_summary.gender-m *)
  scorebox_teams : list string;               (* div.scorebox strong a *)
  scorebox_scores : list string;              (* div.scorebox div.score *)
  linescore : option (list (list string));    (* first table.linescore: tr -> td,th texts *)
  texts : list string }.                      (* all text nodes *)

(** Outcome of one [requests.get]: an exception, or a status and a body. *)
Inductive Resp :=
| RespErr
| RespHttp (status : Z) (body : Soup).

(** A row dict of [scrape_day]. *)
Record Row := mkRow {
  r_date : string; r_home_team : string; r_away_team : string;
  r_home : Z; r_away : Z; r_total : Z; r_margin : Z; r_ot : bool }.

(** The dict literal of [scrape_day]: total and margin from the two scores. *)
Definition mk_row (ds ht at_ : string) (hs as_ : Z) (ot : bool) : Row :=
  mkRow ds ht at_ hs as_ (hs + as_) (hs - as_) ot.

(** Lines of the CSV output file. *)
Inductive CsvLine := CsvHeader | CsvRow (r : Row).

(* ------------------------------------------------------------------ *)
(** ** Effects: a state monad over the process-visible world *)

Inductive Event := EvGet (url : string) | EvSleep (secs : Q).

Record St := mkSt {
  reqs : nat;                       (* HTTP requests issued so far *)
  draws : nat;                      (* random.uniform calls so far *)
  events : list Event;              (* requests and sleeps, in order *)
  ledger : list string;             (* lines of LOG_PATH *)
  store : option (list CsvLine) }.  (* OUTPUT_PATH, None when absent *)

Definition M (A : Type) : Type := St -> A * St.

Definition ret {A} (a : A) : M A := fun s => (a, s).
Definition bind {A B} (m : M A) (k : A -> M B) : M B :=
  fun s => let '(a, s') := m s in k a s'.

Notation "x <- m ;; k" := (bind m (fun x => k))
  (at level 61, m at next level, right associativity).
Notation "m ;; k" := (bind m (fun _ => k)) (at level 61, right associativity).

Fixpoint mapM {A B} (f : A -> M B) (l : list A) : M (list B) :=
  match l with
  | [] => ret []
  | x :: r => y <- f x ;; ys <- mapM f r ;; ret (y :: ys)
  end.

Definition sleep (q : Q) : M unit :=
  fun s => (tt, mkSt (reqs s) (draws s) (events s ++ [EvSleep q]) (ledger s) (store s)).

Definition set_store (f : option (list CsvLine)) : M unit :=
  fun s => (tt, mkSt (reqs s) (draws s) (events s) (ledger s) f).

Definition get_store : M (option (list CsvLine)) := fun s => (store s, s).

(* ------------------------------------------------------------------ *)
(** ** [final_scores_scraper_auto.py] *)

Definition BASE_URL : string := "https://www.sports-reference.com".

Definition OFFSEASON_MONTHS : list Z := [5; 6; 7; 8; 9; 10].

Definition scoreboard_url (d : date) : string :=
  BASE_URL ^^ "/cbb/boxscores/?month=" ^^ show_Z (month d) ^^ "&day="
  ^^ show_Z (day d) ^^ "&year=" ^^ show_Z (year d).

(** Values of the [teams] and [scores] lists of [scrape_day]: bs4 tags from
    the scorebox, or the plain strings and ints set by the fallbacks. *)
Inductive Team := TTag (text : string) | TStr (s : string).
Inductive Score := STag (text : string) | SInt (z : Z).

(** [teams[i] if isinstance(teams[i], str) else teams[i].get_text(strip=True)] *)
Definition team_text (t : Team) : string :=
  match t with TTag x => x | TStr x => x end.

(** [int(scores[i]) if isinstance(scores[i], int) else int(str(scores[i]).strip())]:
    [str()] of a bs4 tag is its markup [<div class="score">..</div>], which
    [int()] rejects with [ValueError]. *)
Definition score_int (sc : Score) : option Z :=
  match sc with SInt z => Some z | STag _ => None end.

(** The two-row parse shared by the inline summaries and Fallback 2:
    [(away_team, home_team, away_score, home_score)], [None] when one of
    [select_one] / [int] raises. *)
Definition parse_team_rows (away_row home_row : TeamRow)
  : option (string * string * Z * Z) :=
  match tr_link_text away_row, tr_link_text home_row,
        tr_right_text away_row, tr_right_text home_row with
  | Some at_, Some ht, Some ast, Some hst =>
      match py_int ast, py_int hst with
      | Some as_, Some hs => Some (at_, ht, as_, hs)
      | _, _ => None
      end
  | _, _, _, _ => None
  end.

(** Fallback 1 body: [away_cells[0]], [home_cells[0]], [int(cells[-1])]. *)
Definition parse_linescore (away_cells home_cells : list string)
  : option (string * string * Z * Z) :=
  match hd_opt away_cells, hd_opt home_cells,
        last_opt away_cells, last_opt home_cells with
  | Some at_, Some ht, Some ast, Some hst =>
      match py_int ast, py_int hst with
      | Some as_, Some hs => Some (at_, ht, as_, hs)
      | _, _ => None
      end
  | _, _, _, _ => None
  end.

Definition too_short (teams : list Team) (scores : list Score) : bool :=
  (length teams <? 2)%nat || (length scores <? 2)%nat.

Definition fallback1 (g : Soup) (ts : list Team * list Score)
  : list Team * list Score :=
  let '(teams, scores) := ts in
  if too_short teams scores then
    match linescore g with
    | Some (r0 :: r1 :: _) =>
        match parse_linescore r0 r1 with
        | Some (at_, ht, as_, hs) => ([TStr at_; TStr ht], [SInt as_; SInt hs])
        | None => ([], [])
        end
    | _ => (teams, scores)
    end
  else (teams, scores).

(** [g_soup.select_one("div.game_summary.gender-m table.teams")]. *)
Definition first_teams_table (g : Soup) : option (list TeamRow) :=
  hd_opt (concat (map sum_tables (summaries_m g))).

Definition fallback2 (g : Soup) (ts : list Team * list Score)
  : list Team * list Score :=
  let '(teams, scores) := ts in
  if too_short teams scores then
    match first_teams_table g with
    | Some (r0 :: r1 :: _) =>
        match parse_team_rows r0 r1 with
        | Some (at_, ht, as_, hs) => ([TStr at_; TStr ht], [SInt as_; SInt hs])
        | None => ([], [])
        end
    | _ => (teams, scores)
    end
  else (teams, scores).

(** The pre-2004 inline-summary loop over [div.game_summary.gender-m]. *)
Definition summary_row (ds : string) (sm : Summary) : option Row :=
  match concat (sum_tables sm) with
  | away_row :: home_row :: _ =>
      match parse_team_rows away_row home_row with
      | Some (at_, ht, as_, hs) => Some (mk_row ds ht at_ hs as_ false)
      | None => None
      end
  | _ => None
  end.

Fixpoint somes {A} (l : list (option A)) : list A :=
  match l with
  | [] => []
  | Some x :: r => x :: somes r
  | None :: r => somes r
  end.

Definition summary_rows (ds : string) (sms : list Summary) : list Row :=
  somes (map (summary_row ds) sms).

(** Game-page parse after the fetch: [None] on [continue]. *)
Definition game_row (ds : string) (g : Soup) : option Row :=
  let '(teams, scores) :=
    fallback2 g (fallback1 g (map TTag (scorebox_teams g),
                              map STag (scorebox_scores g))) in
  if too_short teams scores then None
  else
    match last_opt teams, hd_opt teams, last_opt scores, hd_opt scores with
    | Some ht, Some at_, Some hsc, Some asc =>
        match score_int hsc, score_int asc with
        | Some hs, Some as_ =>
            Some (mk_row ds (team_text ht) (team_text at_) hs as_
                         (existsb (contains "OT") (texts g)))
        | _, _ => None
        end
    | _, _, _, _ => None
    end.

(** [pandas.DataFrame.drop_duplicates(subset=key, keep="last")]: an element
    is kept when no later element has the same key; order is preserved. *)
Fixpoint drop_duplicates_last {A K} (eqK : K -> K -> bool) (key : A -> K)
         (l : list A) : list A :=
  match l with
  | [] => []
  | x :: r =>
      if existsb (fun y => eqK (key x) (key y)) r
      then drop_duplicates_last eqK key r
      else x :: drop_duplicates_last eqK key r
  end.

(** [subset=["date", "home_team", "away_team"]] of [scrape_day]. *)
Definition key3 (r : Row) : string * string * string :=
  (r_date r, r_home_team r, r_away_team r).

Definition eq_key3 (a b : string * string * string) : bool :=
  let '(a1, a2, a3) := a in let '(b1, b2, b3) := b in
  String.eqb a1 b1 && String.eqb a2 b2 && String.eqb a3 b3.

(** Lines read back by [pd.read_csv(out_path, usecols=["date"])]: the first
    line must be the header (a headerless file has no [date] column and an
    empty file raises [EmptyDataError]). *)
Definition line_date (l : CsvLine) : string :=
  match l with CsvHeader => "date" | CsvRow r => r_date r end.

Definition read_csv_dates (f : list CsvLine) : option (list string) :=
  match f with
  | CsvHeader :: rest => Some (map line_date rest)
  | _ => None
  end.

Section World.

(** The server: the response to the [n]-th request of the run, for a URL. *)
Variable net : nat -> string -> Resp.
(** [random.random()] values, in draw order. *)
Variable rnd : nat -> Q.
(** Whether opening [LOG_PATH] for append raises [PermissionError]. *)
Variable log_locked : bool.

Definition http_get (url : string) : M Resp :=
  fun s => (net (reqs s) url,
            mkSt (S (reqs s)) (draws s) (events s ++ [EvGet url]) (ledger s) (store s)).

(** [random.uniform(a, b)]. *)
Definition uniform (a b : Q) : M Q :=
  fun s => ((a + (b - a) * rnd (draws s))%Q,
            mkSt (reqs s) (S (draws s)) (events s) (ledger s) (store s)).

(** [with open(LOG_PATH, "a") as logf: logf.write(line)], with the
    [PermissionError] handler that skips the entry. *)
Definition log_write (line : string) : M unit :=
  fun s => (tt, mkSt (reqs s) (draws s) (events s)
                     (if log_locked then ledger s else ledger s ++ [line]) (store s)).

(** [for attempt in range(retries)] of [safe_get], from [attempt] on with
    [n] attempts left; [None] stands for the returned [None]. *)
Fixpoint safe_get_loop (url : string) (base_delay : Q) (attempt n : nat)
  : M (option Soup) :=
  match n with
  | O => ret None
  | S n' =>
      resp <- http_get url ;;
      match resp with
      | RespErr =>
          sleep base_delay ;; safe_get_loop url base_delay (S attempt) n'
      | RespHttp code body =>
          sleep (31 # 10) ;;
          if code =? 200 then ret (Some body)
          else if code =? 429 then
            j <- uniform 1 3 ;;
            sleep (base_delay * inject_Z (2 ^ Z.of_nat attempt) + j)%Q ;;
            safe_get_loop url base_delay (S attempt) n'
          else ret None
      end
  end.

Definition safe_get (url : string) (retries : nat) (base_delay : Q) : M (option Soup) :=
  safe_get_loop url base_delay 0 retries.

Definition sleep_uniform (a b : Q) : M unit := w <- uniform a b ;; sleep w.

(** One iteration of [for box in boxes] of [scrape_day]. *)
Definition process_box (d : date) (ds : string) (box : Box) : M (option Row) :=
  match box_href box with
  | None => ret None
  | Some href =>
      if negb (contains ("/cbb/boxscores/" ^^ ds) href) then ret None
      else if contains "women" (lower href)
              || existsb (fun c => contains "women" (lower c)) (box_classes box)
      then ret None
      else if existsb (Z.eqb (month d)) OFFSEASON_MONTHS then ret None
      else
        gp <- safe_get (BASE_URL ^^ href) 3 (3 # 1) ;;
        match gp with
        | None => ret None
        | Some g =>
            match game_row ds g with
            | None => ret None
            | Some r => sleep_uniform (32 # 10) (4 # 1) ;; ret (Some r)
            end
        end
  end.

Definition scrape_day (d : date) : M (list Row) :=
  let ds := date_str d in
  resp <- safe_get (scoreboard_url d) 4 (8 # 1) ;;
  match resp with
  | None => ret []
  | Some soup =>
      let rows0 := if year d <=? 2003 then summary_rows ds (summaries_m soup) else [] in
      brs <- mapM (process_box d ds) (gamelinks soup) ;;
      match rows0 ++ somes brs with
      | [] => log_write (ds ^^ ": 0 games scraped" ^^ nl) ;; ret []
      | rows =>
          let df := drop_duplicates_last eq_key3 key3 rows in
          log_write (ds ^^ ": " ^^ show_Z (Z.of_nat (length df)) ^^ " games scraped" ^^ nl) ;;
          ret df
      end
  end.

Definition append_to_master (df : list Row) : M unit :=
  match df with
  | [] => ret tt
  | _ =>
      f <- get_store ;;
      match f with
      | None => set_store (Some (CsvHeader :: map CsvRow df))
      | Some lines => set_store (Some (lines ++ map CsvRow df))
      end
  end.

(** [get_existing_dates] over a CSV reader ([None]: the reader raised). *)
Definition get_existing_dates_with (reader : list CsvLine -> option (list string))
  : M (list string) :=
  fun s => (match store s with
            | None => []
            | Some f => match reader f with Some ds => ds | None => [] end
            end, s).

Definition get_existing_dates : M (list string) :=
  get_existing_dates_with read_csv_dates.

Definition mem_str (x : string) (l : list string) : bool := existsb (String.eqb x) l.

Fixpoint run_days (existing : list string) (days : list date) : M unit :=
  match days with
  | [] => ret tt
  | d :: rest =>
      (if mem_str (date_str d) existing then ret tt
       else df <- scrape_day d ;; append_to_master df) ;;
      sleep_uniform 60 90 ;;
      run_days existing rest
  end.

Definition run_auto_scrape (start_date end_date : date) : M unit :=
  existing <- get_existing_dates ;;
  run_days existing (range_days start_date end_date).

End World.

(* ------------------------------------------------------------------ *)
(** ** [rescrape_missed_days.py] *)

Module Rescrape.

(** [f.readlines()] on text-mode content (newlines already translated):
    each line keeps its terminating newline. *)
Fixpoint readlines_aux (s : string) (cur : string) : list string :=
  match s with
  | EmptyString => match cur with EmptyString => [] | _ => [rev_str cur] end
  | String c r =>
      if Ascii.eqb c (ascii_of_nat 10)
      then rev_str (String c cur) :: readlines_aux r EmptyString
      else readlines_aux r (String c cur)
  end.

Definition readlines (s : string) : list string := readlines_aux s EmptyString.

(** [line.split(":")[0]]. *)
Fixpoint before_colon (s : string) : string :=
  match s with
  | EmptyString => EmptyString
  | String c r => if Ascii.eqb c ":"%char then EmptyString else String c (before_colon r)
  end.

(** [.strip("[] ")]. *)
Definition strip_brackets (s : string) : string :=
  strip_by (fun c => Ascii.eqb c "["%char || Ascii.eqb c "]"%char || Ascii.eqb c " "%char) s.

(** The regex that [_strptime] builds for ["%Y-%m-%d"]:
    [(\d\d\d\d)-(1[0-2]|0[1-9]|[1-9])-(3[01]|[12]\d|0[1-9]|[1-9]| [1-9])],
    alternatives tried in order (ASCII digits). *)
Definition dig (c : ascii) : option Z := if is_digit c then Some (digit_val c) else None.

Definition in_range (c : ascii) (lo hi : Z) : option Z :=
  match dig c with Some v => if (lo <=? v) && (v <=? hi) then Some v else None | None => None end.

Definition year4 (s : string) : option (Z * string) :=
  match s with
  | String a (String b (String c (String e r))) =>
      match dig a, dig b, dig c, dig e with
      | Some va, Some vb, Some vc, Some ve => Some (((va * 10 + vb) * 10 + vc) * 10 + ve, r)
      | _, _, _, _ => None
      end
  | _ => None
  end.

Definition month_alts (s : string) : list (Z * string) :=
  (match s with
   | String a (String b r) =>
       match in_range a 1 1, in_range b 0 2 with Some _, Some vb => [(10 + vb, r)] | _, _ => [] end
   | _ => [] end)
  ++ (match s with
      | String a (String b r) =>
          match in_range a 0 0, in_range b 1 9 with Some _, Some vb => [(vb, r)] | _, _ => [] end
      | _ => [] end)
  ++ (match s with
      | String a r => match in_range a 1 9 with Some va => [(va, r)] | None => [] end
      | _ => [] end).

Definition day_alts (s : string) : list (Z * string) :=
  (match s with
   | String a (String b r) =>
       match in_range a 3 3, in_range b 0 1 with Some _, Some vb => [(30 + vb, r)] | _, _ => [] end
   | _ => [] end)
  ++ (match s with
      | String a (String b r) =>
          match in_range a 1 2, dig b with Some va, Some vb => [(va * 10 + vb, r)] | _, _ => [] end
      | _ => [] end)
  ++ (match s with
      | String a (String b r) =>
          match in_range a 0 0, in_range b 1 9 with Some _, Some vb => [(vb, r)] | _, _ => [] end
      | _ => [] end)
  ++ (match s with
      | String a r => match in_range a 1 9 with Some va => [(va, r)] | None => [] end
      | _ => [] end)
  ++ (match s with
      | String a (String b r) =>
          if Ascii.eqb a " "%char
          then match in_range b 1 9 with Some vb => [(vb, r)] | None => [] end
          else []
      | _ => [] end).

Definition after_dash (s : string) : option string :=
  match s with String c r => if Ascii.eqb c "-"%char then Some r else None | _ => None end.

(** First match of the regex (month alternatives backtrack on what
    follows them; the day group ends the pattern). *)
Fixpoint first_month (y : Z) (ms : list (Z * string)) : option (Z * Z * Z * string) :=
  match ms with
  | [] => None
  | (m, r) :: more =>
      match after_dash r with
      | Some r' =>
          match day_alts r' with
          | (dd, rest) :: _ => Some (y, m, dd, rest)
          | [] => first_month y more
          end
      | None => first_month y more
      end
  end.

(** [datetime.strptime(s, "%Y-%m-%d")] succeeds: the match must reach the
    end of [s] and the date must exist. *)
Definition strptime_ymd_ok (s : string) : bool :=
  match year4 s with
  | Some (y, r) =>
      match after_dash r with
      | Some r' =>
          match first_month y (month_alts r') with
          | Some (y', m, dd, EmptyString) =>
              (1 <=? y') && (1 <=? dd) && (dd <=? days_in_month y' m)
          | _ => false
          end
      | None => false
      end
  | None => false
  end.

Definition cross_mark : string :=
  String (ascii_of_nat 226) (String (ascii_of_nat 157) (String (ascii_of_nat 140) EmptyString)).

Definition is_failure_line (line : string) : bool :=
  contains "0 games scraped" line || contains "Failed to load" line || contains cross_mark line.

Fixpoint str_ltb (a b : string) : bool :=
  match a, b with
  | EmptyString, EmptyString => false
  | EmptyString, String _ _ => true
  | String _ _, EmptyString => false
  | String c a', String e b' =>
      (nat_of_ascii c <? nat_of_ascii e)%nat
      || ((nat_of_ascii c =? nat_of_ascii e)%nat && str_ltb a' b')
  end.

Fixpoint insert_uniq (x : string) (l : list string) : list string :=
  match l with
  | [] => [x]
  | y :: r =>
      if String.eqb x y then l
      else if str_ltb x y then x :: l
      else y :: insert_uniq x r
  end.

(** [sorted(set(xs))]. *)
Definition sorted_set (xs : list string) : list string := fold_right insert_uniq [] xs.

Definition failed_of_lines (lines : list string) : list string :=
  sorted_set
    (filter strptime_ymd_ok
       (map (fun line => strip_brackets (before_colon line))
            (filter is_failure_line lines))).

(** [find_failed_days(log_path)]: [None] when the file does not exist. *)
Definition find_failed_days (content : option string) : list string :=
  match content with
  | None => []
  | Some txt => failed_of_lines (readlines txt)
  end.

(** [datetime.strptime(s, "%Y-%m-%d")]: the date, or [None] for the
    [ValueError]; the same regex match as [strptime_ymd_ok]. *)
Definition strptime_ymd (s : string) : option date :=
  match year4 s with
  | Some (y, r) =>
      match after_dash r with
      | Some r' =>
          match first_month y (month_alts r') with
          | Some (y', m, dd, EmptyString) =>
              if (1 <=? y') && (1 <=? dd) && (dd <=? days_in_month y' m)
              then Some (mkDate y' m dd) else None
          | _ => None
          end
      | None => None
      end
  | None => None
  end.

Section Rerun.

Variable net : nat -> string -> Resp.
Variable rnd : nat -> Q.
Variable log_locked : bool.

(** One iteration of [for date_str in failed] of [rescrape_failed_days]
    ([None] of [strptime_ymd] would be the [ValueError]). *)
Definition rescrape_one (ds : string) : M unit :=
  match strptime_ymd ds with
  | Some d => df_day <- scrape_day net rnd log_locked d ;; append_to_master df_day
  | None => ret tt
  end.

(** [rescrape_failed_days()], [content] being [LOG_FILE] ([None]: absent). *)
Definition rescrape_failed_days (content : option string) : M unit :=
  match find_failed_days content with
  | [] => ret tt
  | failed => mapM rescrape_one failed ;; ret tt
  end.

End Rerun.

End Rescrape.

(* ------------------------------------------------------------------ *)
(** ** [rebuild_scores_25yrs.py] *)

Module Rebuild.

(** A [tr] of [table.teams]: the first [td a[href*='/cbb/schools/']] as
    (stripped text, href), and the text of the first [td.right]. *)
Record PRow := mkPRow {
  p_school : option (string * string);
  p_right : option string }.

(** A [div.game_summary] block. *)
Record GBox := mkGBox {
  g_classes : list string;
  g_text : string;                 (* box.get_text(" ", strip=True) *)
  g_link : option string;          (* href of td.gamelink a[href*='/cbb/boxscores/'] *)
  g_rows : list PRow }.            (* table.teams tr *)

(** A row dict of [parse_day] ([ot] is 0 or 1). *)
Record RRow := mkRRow {
  q_date : string; q_home_team : string; q_away_team : string;
  q_home : Z; q_away : Z; q_total : Z; q_margin : Z; q_ot : Z }.

Definition IN_SEASON_MONTHS : list Z := [11; 12; 1; 2; 3; 4].

Definition is_in_season (d : date) : bool := existsb (Z.eqb (month d)) IN_SEASON_MONTHS.

(** [ymd(date_obj)]. *)
Definition ymd (d : date) : string :=
  pad 4 (year d) ^^ "-" ^^ pad 2 (month d) ^^ "-" ^^ pad 2 (day d).

(** [date_obj.strftime("%-m/%-d/%Y")]. *)
Definition us_date (d : date) : string :=
  show_Z (month d) ^^ "/" ^^ show_Z (day d) ^^ "/" ^^ pad 4 (year d).

(** [row_to_team_score(tr)]: [(tname, sc)] with [None] for Python's [None]. *)
Definition row_to_team_score (tr : PRow) : option string * option Z :=
  let tname := match p_school tr with
               | Some (t, _) => strip_by is_ws t
               | None => ""
               end in
  match p_school tr with
  | Some (_, href) =>
      if negb (contains "/men/" href) then (None, None)
      else (Some tname, match p_right tr with Some t => py_int t | None => py_int "" end)
  | None => (Some tname, match p_right tr with Some t => py_int t | None => py_int "" end)
  end.

(** [not t]: [None] and [""] are falsy. *)
Definition falsy_str (t : option string) : bool :=
  match t with None => true | Some EmptyString => true | Some _ => false end.

(** One iteration of [for box in boxes]. *)
Definition parse_box (wanted : string) (d : date) (box : GBox) : option RRow :=
  let is_mens := existsb (String.eqb "gender-m") (g_classes box)
                 || contains "Men's" (g_text box) in
  if negb is_mens then None else
  match g_link box with
  | None => None
  | Some href =>
      if negb (contains wanted href) then None else
      match g_rows box with
      | tr1 :: tr2 :: _ =>
          let '(t1, s1) := row_to_team_score tr1 in
          let '(t2, s2) := row_to_team_score tr2 in
          if falsy_str t1 || falsy_str t2 then None else
          match t1, t2, s1, s2 with
          | Some away_team, Some home_team, Some away, Some home =>
              Some (mkRRow (us_date d) home_team away_team home away
                           (home + away) (home - away)
                           (if contains "OT" (g_text box) then 1 else 0))
          | _, _, _, _ => None
          end
      | _ => None
      end
  end.

(** [drop_duplicates(subset=[...])] with the default [keep="first"]. *)
Fixpoint drop_duplicates_first {A K} (eqK : K -> K -> bool) (key : A -> K)
         (seen : list K) (l : list A) : list A :=
  match l with
  | [] => []
  | x :: r =>
      if existsb (eqK (key x)) seen
      then drop_duplicates_first eqK key seen r
      else x :: drop_duplicates_first eqK key (key x :: seen) r
  end.

Definition key4 (r : RRow) : string * string * Z * Z :=
  (q_home_team r, q_away_team r, q_home r, q_away r).

Definition eq_key4 (a b : string * string * Z * Z) : bool :=
  let '(a1, a2, a3, a4) := a in let '(b1, b2, b3, b4) := b in
  String.eqb a1 b1 && String.eqb a2 b2 && Z.eqb a3 b3 && Z.eqb a4 b4.

Definition parse_day (boxes : list GBox) (d : date) : list RRow :=
  let games := somes (map (parse_box (ymd d) d) boxes) in
  match games with
  | [] => []
  | _ => drop_duplicates_first eq_key4 key4 [] games
  end.
(** [START] of the configuration; [END] is [datetime.today()], a parameter. *)
Definition START : date := mkDate 2000 11 7.

(** What [fetch_html] hands back: [page.content()] and the [div.game_summary]
    blocks BeautifulSoup finds in it. *)
Record Page := mkPage { pg_html : string; pg_boxes : list GBox }.

(** Lines of [scores_clean.csv]: the [DictWriter] header (the keys of a
    row dict) and the rows. *)
Inductive OutLine := OutHeader | OutRow (r : RRow).

Inductive REvent := RGoto (url : string) | RSleep (secs : Q).

Record RSt := mkRSt {
  r_gotos : nat;                    (* page.goto calls so far *)
  r_events : list REvent;           (* navigations and sleeps, in order *)
  r_out : option (list OutLine) }.  (* OUT_PATH, None when absent *)

Definition rsleep (q : Q) (st : RSt) : RSt :=
  mkRSt (r_gotos st) (r_events st ++ [RSleep q]) (r_out st).

(** [with OUT_PATH.open("a") as f: ... writeheader() if write_header;
    writerows(games)]. *)
Definition write_rows (write_header : bool) (games : list RRow) (st : RSt) : RSt :=
  mkRSt (r_gotos st) (r_events st)
        (Some (match r_out st with None => [] | Some l => l end
               ++ (if write_header then [OutHeader] else []) ++ map OutRow games)).

(** The [while d <= END] loop of [scrape_range] over the remaining days.
    [browse n url] is what [fetch_html] returns for the [n]-th navigation:
    [None] when [page.goto] raises, which ends the run with the exception
    (the result [None]); otherwise the result is [total_rows]. *)
Fixpoint scrape_days (browse : nat -> string -> option Page) (days : list date)
         (write_header : bool) (total_rows : Z) (st : RSt) : option Z * RSt :=
  match days with
  | [] => (Some total_rows, st)
  | d :: rest =>
      if negb (is_in_season d) then scrape_days browse rest write_header total_rows st
      else
        let url := scoreboard_url d in
        let st1 := mkRSt (S (r_gotos st)) (r_events st ++ [RGoto url]) (r_out st) in
        match browse (r_gotos st) url with
        | None => (None, st1)
        | Some pg =>
            if contains "no box scores" (lower (pg_html pg))
            then scrape_days browse rest write_header total_rows (rsleep (1 # 10) st1)
            else
              let games := parse_day (pg_boxes pg) d in
              match games with
              | [] => scrape_days browse rest write_header total_rows (rsleep (125 # 100) st1)
              | _ =>
                  scrape_days browse rest false (total_rows + Z.of_nat (length games))
                              (rsleep (125 # 100) (write_rows write_header games st1))
              end
        end
  end.

(** [scrape_range()] from [start] to [end_]: the output file is deleted
    first. *)
Definition scrape_range (browse : nat -> string -> option Page) (start end_ : date)
           (st : RSt) : option Z * RSt :=
  scrape_days browse (range_days start end_) true 0 (mkRSt (r_gotos st) (r_events st) None).

End Rebuild.

(* ------------------------------------------------------------------ *)
(** ** Vocabulary of the proofs *)

(** Two programs return the same value from any two start states. *)
Definition same_val {A} (m1 m2 : M A) : Prop :=
  forall s1 s2, fst (m1 s1) = fst (m2 s2).

(** A program relates its start and end state by [R]. *)
Definition preserves {A} (R : St -> St -> Prop) (m : M A) : Prop :=
  forall s, R s (snd (m s)).

Definition same_store (s s' : St) : Prop := store s' = store s.
Definition same_ledger (s s' : St) : Prop := ledger s' = ledger s.
Definition events_grow (s s' : St) : Prop := exists ext, events s' = events s ++ ext.

(** Responses after which [safe_get] tries again. *)
Definition retryable (r : Resp) : bool :=
  match r with RespErr => true | RespHttp c _ => c =? 429 end.

(** The body returned for a response: the page on HTTP 200. *)
Definition ok_body (r : Resp) : option Soup :=
  match r with RespHttp c b => if c =? 200 then Some b else None | RespErr => None end.

(** Events of one request attempt [k] of [safe_get]: the request, then
    the base delay after a transport error; the 3.1 s pacing after a
    response, followed for a 429 by the backoff [base * 2^k + jitter]. *)
Definition attempt_block (url : string) (base : Q) (r : Resp) (k : nat) (jitter : Q)
  : list Event :=
  match r with
  | RespErr => [EvGet url; EvSleep base]
  | RespHttp c _ =>
      if c =? 429
      then [EvGet url; EvSleep (31 # 10); EvSleep (base * inject_Z (2 ^ Z.of_nat k) + jitter)%Q]
      else [EvGet url; EvSleep (31 # 10)]
  end.

(** The output file after [append_to_master rows]. *)
Definition app_store (f : option (list CsvLine)) (rows : list Row) : option (list CsvLine) :=
  match rows with
  | [] => f
  | _ => match f with
         | None => Some (CsvHeader :: map CsvRow rows)
         | Some lines => Some (lines ++ map CsvRow rows)
         end
  end.

(** The dates [get_existing_dates] reads from an output file. *)
Definition dates_of (f : option (list CsvLine)) : list string :=
  match f with
  | None => []
  | Some l => match read_csv_dates l with Some ds => ds | None => [] end
  end.

(** An output file that is absent or starts with the CSV header. *)
Definition header_ok (f : option (list CsvLine)) : Prop :=
  f = None \/ exists rest, f = Some (CsvHeader :: rest).

Definition zero_line (d : date) : string := date_str d ^^ ": 0 games scraped" ^^ nl.

(** The URLs requested, in order. *)
Definition requested (evs : list Event) : list string :=
  flat_map (fun e => match e with EvGet u => [u] | EvSleep _ => [] end) evs.

(** A string without a line feed. *)
Fixpoint nl_free (s : string) : bool :=
  match s with
  | EmptyString => true
  | String c r => negb (Ascii.eqb c (ascii_of_nat 10)) && nl_free r
  end.

(** A line as [logf.write] appends it: text without a line feed, then one. *)
Definition log_line (l : string) : Prop := exists b, l = b ^^ nl /\ nl_free b = true.

(** Python's [<] on [str]: code-point (here byte) lexicographic order. *)
Definition str_lt (a b : string) : Prop := Rescrape.str_ltb a b = true.

(** A calendar date [datetime] accepts. *)
Definition valid_date (d : date) : Prop :=
  1 <= year d <= 9999 /\ 1 <= month d <= 12 /\ 1 <= day d <= days_in_month (year d) (month d).

(** A calendar date without the upper bound on the year: what [next_day]
    keeps. *)
Definition weak_valid (d : date) : Prop :=
  1 <= year d /\ 1 <= month d <= 12 /\ 1 <= day d <= days_in_month (year d) (month d).

(** The log file stays a sequence of complete lines. *)
Definition ledger_log_lines (s s' : St) : Prop :=
  Forall log_line (ledger s) -> Forall log_line (ledger s').

(** The pages [scrape_range] navigates to, in order. *)
Definition gotos (evs : list Rebuild.REvent) : list string :=
  flat_map (fun e => match e with Rebuild.RGoto u => [u] | Rebuild.RSleep _ => [] end) evs.

(** The lines of a file, [[]] when it is absent. *)
Definition out_lines (o : option (list Rebuild.OutLine)) : list Rebuild.OutLine :=
  match o with None => [] | Some l => l end.

(** The shape of [scores_clean.csv] while [scrape_range] runs, with the
    value of [write_header] and of [total_rows]: absent before the first
    write, then one header followed by every row written. *)
Definition out_inv (write_header : bool) (total_rows : Z) (o : option (list Rebuild.OutLine)) : Prop :=
  (write_header = true /\ o = None /\ total_rows = 0) \/
  (write_header = false /\
   exists rows, o = Some (Rebuild.OutHeader :: map Rebuild.OutRow rows) /\
                rows <> [] /\ total_rows = Z.of_nat (length rows)).

(** The run of [rescrape_failed_days] over the dates [L] from [s] to
    [s']: for each date in turn, [strptime] succeeds, [scrape_day] runs on
    the parsed day (its first event being the request of that day's
    scoreboard), then [append_to_master] on the returned frame. *)
Fixpoint rescrape_chain (net : nat -> string -> Resp) (rnd : nat -> Q) (lk : bool)
         (L : list string) (s s' : St) : Prop :=
  match L with
  | [] => s' = s
  | ds :: L' =>
      exists d, Rescrape.strptime_ymd ds = Some d /\
        (exists ext, events (snd (scrape_day net rnd lk d s)) = events s ++ EvGet (scoreboard_url d) :: ext) /\
        rescrape_chain net rnd lk L'
          (snd (append_to_master (fst (scrape_day net rnd lk d s)) (snd (scrape_day net rnd lk d s)))) s'
  end.

(** The relation "the output file of [s'] is the one of [s] with rows
    appended, a header first if it was created". *)
Definition appends_rows (s s' : St) : Prop :=
  match store s with
  | Some l => exists rows, store s' = Some (l ++ map CsvRow rows)
  | None => store s' = None \/ exists rows, store s' = Some (CsvHeader :: map CsvRow rows)
  end.

(* ------------------------------------------------------------------ *)
(** ** Concrete pages used by the witnesses and counterexamples *)

Module Fixtures.

Definition empty_soup : Soup := mkSoup [] [] [] [] None [].

Definition s_init : St := mkSt 0 0 [] [] None.

Definition no_jitter : nat -> Q := fun _ => 0%Q.

(** A game page in the early-2000s [table.linescore] layout. *)
Definition linescore_page (away home : string) (as_ hs : Z) : Soup :=
  mkSoup [] [] [] [] (Some [[away; show_Z as_]; [home; show_Z hs]]) [].

Definition game_href (d : date) (tag : string) : string :=
  "/cbb/boxscores/" ^^ date_str d ^^ "-19-" ^^ tag ^^ ".html".

Definition scoreboard_with (d : date) (tags : list string) : Soup :=
  mkSoup (map (fun t => mkBox (Some (game_href d t)) ["gamelink"]) tags) [] [] [] None [].

(** A server that answers the same thing to every request for a URL. *)
Definition serve (pages : list (string * Resp)) : nat -> string -> Resp :=
  fun _ u =>
    match find (fun p => String.eqb (fst p) u) pages with
    | Some (_, r) => r
    | None => RespHttp 404 empty_soup
    end.

(** Two boxscore links of one day whose game pages give the same teams
    with different scores. *)
Definition jan5 : date := mkDate 2010 1 5.

Definition net_two_scores : nat -> string -> Resp :=
  serve [(scoreboard_url jan5, RespHttp 200 (scoreboard_with jan5 ["a"; "b"]));
         (BASE_URL ^^ game_href jan5 "a", RespHttp 200 (linescore_page "Duke" "UNC" 70 65));
         (BASE_URL ^^ game_href jan5 "b", RespHttp 200 (linescore_page "Duke" "UNC" 70 66))].

(** One day, one game, same answer to every request. *)
Definition net_one_game : nat -> string -> Resp :=
  serve [(scoreboard_url jan5, RespHttp 200 (scoreboard_with jan5 ["a"]));
         (BASE_URL ^^ game_href jan5 "a", RespHttp 200 (linescore_page "Duke" "UNC" 70 65))].

(** The row of that game. *)
Definition duke_unc : Row := mk_row (date_str jan5) "UNC" "Duke" 65 70 false.

(** The first request of the run gets a scoreboard with no boxes yet (a
    page served before it was rendered); every later request gets the full
    one-game day. *)
Definition net_retry : nat -> string -> Resp :=
  fun n u => if Nat.eqb n 0 then RespHttp 200 empty_soup else net_one_game n u.

(** A 2002-11-22 scoreboard whose only men's summary block is an echo of
    a game of the day before: its boxscore link carries 2002-11-21. *)
Definition nov22_2002 : date := mkDate 2002 11 22.

Definition echoed_link : string := "/cbb/boxscores/2002-11-21-19-duke.html".

Definition echoed_summary : Summary :=
  mkSummary [[mkTeamRow (Some "Duke") (Some "70"); mkTeamRow (Some "UNC") (Some "65")]]
            [echoed_link].

Definition net_echo : nat -> string -> Resp :=
  serve [(scoreboard_url nov22_2002,
          RespHttp 200 (mkSoup [] [echoed_summary] [] [] None []))].

(** The same block as [rebuild_scores_25yrs.py] sees it, with a given link. *)
Definition summary_gbox (href : string) : Rebuild.GBox :=
  Rebuild.mkGBox ["game_summary"; "gender-m"] "Duke 70 UNC 65 Final" (Some href)
    [Rebuild.mkPRow (Some ("Duke", "/cbb/schools/duke/men/2003.html")) (Some "70");
     Rebuild.mkPRow (Some ("UNC", "/cbb/schools/north-carolina/men/2003.html")) (Some "65")].

(** A browser whose every navigation shows one men's game of 2010-01-05. *)
Definition browse_jan5 : nat -> string -> option Rebuild.Page :=
  fun _ _ => Some (Rebuild.mkPage "" [summary_gbox "/cbb/boxscores/2010-01-05-19-duke.html"]).

(** An off-season day whose scoreboard lists one game. *)
Definition jul1 : date := mkDate 2010 7 1.

Definition net_july : nat -> string -> Resp :=
  serve [(scoreboard_url jul1, RespHttp 200 (scoreboard_with jul1 ["a"]));
         (BASE_URL ^^ game_href jul1 "a", RespHttp 200 (linescore_page "Duke" "UNC" 70 65))].

(** Two days: the 2010-01-05 scoreboard answers 404, the 2010-01-06 one
    lists one game. *)
Definition jan6 : date := mkDate 2010 1 6.

Definition net_404_then_game : nat -> string -> Resp :=
  serve [(scoreboard_url jan6, RespHttp 200 (scoreboard_with jan6 ["a"]));
         (BASE_URL ^^ game_href jan6 "a", RespHttp 200 (linescore_page "Duke" "UNC" 70 65))].

(** The ledger line of a day with no game. *)
Definition jan5_zero : string := "2010-01-05: 0 games scraped" ^^ nl.

(** An output file that exists but is empty (0 bytes). *)
Definition s_empty_file : St := mkSt 0 0 [] [] (Some []).

End Fixtures.

(* ------------------------------------------------------------------ *)
(** * Properties *)

(** ** Sanity checks of the helpers *)

Example py_int_ex1 : py_int " 70 " = Some 70. Proof. reflexivity. Qed.
Example py_int_ex2 : py_int "-5" = Some (-5). Proof. reflexivity. Qed.
Example py_int_ex3 : py_int "1_000" = Some 1000. Proof. reflexivity. Qed.
Example py_int_ex4 : py_int "7a" = None. Proof. reflexivity. Qed.
Example pad_ex : pad 2 7 ^^ pad 4 2010 = "072010". Proof. reflexivity. Qed.
Example range_ex :
  map date_str (range_days (mkDate 2004 2 28) (mkDate 2004 3 1))
  = ["2004-02-28"; "2004-02-29"; "2004-03-01"].
Proof. reflexivity. Qed.
Example strptime_ex1 : Rescrape.strptime_ymd_ok "2010-01-05" = true. Proof. reflexivity. Qed.
Example strptime_ex2 : Rescrape.strptime_ymd_ok "2010-1-5" = true. Proof. reflexivity. Qed.
Example strptime_ex3 : Rescrape.strptime_ymd_ok "2010-02-30" = false. Proof. reflexivity. Qed.
Example strptime_ex4 : Rescrape.strptime_ymd_ok "  Failed to load scoreboard for 2010-01-05" = false.
Proof. reflexivity. Qed.

(** ** Program logic for the state monad *)

Lemma same_val_ret {A} (a : A) : same_val (ret a) (ret a).
Proof. intros s1 s2. reflexivity. Qed.

Lemma same_val_unit (m1 m2 : M unit) : same_val m1 m2.
Proof. intros s1 s2. destruct (fst (m1 s1)), (fst (m2 s2)). reflexivity. Qed.

Lemma same_val_bind {A B} (m1 m2 : M A) (k1 k2 : A -> M B) :
  same_val m1 m2 -> (forall a, same_val (k1 a) (k2 a)) ->
  same_val (bind m1 k1) (bind m2 k2).
Proof.
  intros Hm Hk s1 s2. unfold bind.
  specialize (Hm s1 s2).
  destruct (m1 s1) as [a1 t1], (m2 s2) as [a2 t2]. simpl in Hm. subst.
  apply Hk.
Qed.

Lemma same_val_bind_any {A B} (m1 m2 : M A) (k1 k2 : A -> M B) :
  (forall a b, same_val (k1 a) (k2 b)) -> same_val (bind m1 k1) (bind m2 k2).
Proof.
  intros Hk s1 s2. unfold bind.
  destruct (m1 s1) as [a1 t1], (m2 s2) as [a2 t2]. apply Hk.
Qed.

Lemma same_val_mapM {A B} (f1 f2 : A -> M B) (l : list A) :
  (forall x, same_val (f1 x) (f2 x)) -> same_val (mapM f1 l) (mapM f2 l).
Proof.
  intros Hf. induction l as [|x r IH]; simpl.
  - apply same_val_ret.
  - apply same_val_bind; [apply Hf|]. intros y.
    apply same_val_bind; [exact IH|]. intros ys. apply same_val_ret.
Qed.

Section Preserves.

Variable R : St -> St -> Prop.
Hypothesis R_refl : forall s, R s s.
Hypothesis R_trans : forall s1 s2 s3, R s1 s2 -> R s2 s3 -> R s1 s3.

Lemma preserves_ret {A} (a : A) : preserves R (ret a).
Proof. intros s. apply R_refl. Qed.

Lemma preserves_bind {A B} (m : M A) (k : A -> M B) :
  preserves R m -> (forall a, preserves R (k a)) -> preserves R (bind m k).
Proof.
  intros Hm Hk s. unfold bind.
  pose proof (Hm s) as H1. destruct (m s) as [a t]. simpl in H1.
  eapply R_trans; [exact H1 | apply Hk].
Qed.

Lemma preserves_mapM {A B} (f : A -> M B) (l : list A) :
  (forall x, preserves R (f x)) -> preserves R (mapM f l).
Proof.
  intros Hf. induction l as [|x r IH]; simpl.
  - apply preserves_ret.
  - apply preserves_bind; [apply Hf|]. intros y.
    apply preserves_bind; [exact IH|]. intros ys. apply preserves_ret.
Qed.

End Preserves.

Lemma same_store_refl s : same_store s s. Proof. reflexivity. Qed.
Lemma same_store_trans s1 s2 s3 : same_store s1 s2 -> same_store s2 s3 -> same_store s1 s3.
Proof. unfold same_store. congruence. Qed.
Lemma same_ledger_refl s : same_ledger s s. Proof. reflexivity. Qed.
Lemma same_ledger_trans s1 s2 s3 : same_ledger s1 s2 -> same_ledger s2 s3 -> same_ledger s1 s3.
Proof. unfold same_ledger. congruence. Qed.
Lemma events_grow_refl s : events_grow s s.
Proof. exists []. rewrite app_nil_r. reflexivity. Qed.
Lemma events_grow_trans s1 s2 s3 : events_grow s1 s2 -> events_grow s2 s3 -> events_grow s1 s3.
Proof.
  intros [e1 H1] [e2 H2]. exists (e1 ++ e2). rewrite H2, H1, app_assoc. reflexivity.
Qed.

(** Walk a program built from [bind], [ret], [mapM] and branches, leaving
    the primitive actions as goals. *)
Ltac walk_preserves refl trans :=
  repeat match goal with
  | |- forall _, _ => intro
  | |- preserves _ (bind _ _) => apply (preserves_bind _ trans)
  | |- preserves _ (ret _) => apply (preserves_ret _ refl)
  | |- preserves _ (mapM _ _) => apply (preserves_mapM _ refl trans)
  | |- preserves _ (match ?x with _ => _ end) => destruct x
  | |- preserves _ (if ?b then _ else _) => destruct b
  | |- preserves _ (let '(_, _) := ?x in _) => destruct x
  end.

Ltac walk_same_val :=
  repeat match goal with
  | |- forall _, _ => intro
  | |- same_val (bind (uniform _ _ _) _) (bind (uniform _ _ _) _) => apply same_val_bind_any
  | |- @same_val unit _ _ => apply same_val_unit
  | |- same_val (bind _ _) (bind _ _) => apply same_val_bind
  | |- same_val (ret _) (ret _) => apply same_val_ret
  | |- same_val (mapM _ _) (mapM _ _) => apply same_val_mapM
  | |- same_val (match ?x with _ => _ end) (match ?x with _ => _ end) => destruct x
  | |- same_val (if ?b then _ else _) (if ?b then _ else _) => destruct b
  end.

(** ** Frame facts of the scraper's actions *)

Ltac prim_store := first [ intros ?s; reflexivity | eassumption | auto ].

Lemma safe_get_loop_store net rnd url base a n :
  preserves same_store (safe_get_loop net rnd url base a n).
Proof.
  revert a. induction n as [|n IH]; intros a; simpl;
    walk_preserves same_store_refl same_store_trans; prim_store.
Qed.

Lemma process_box_store net rnd d ds box :
  preserves same_store (process_box net rnd d ds box).
Proof.
  unfold process_box, safe_get, sleep_uniform.
  walk_preserves same_store_refl same_store_trans;
    first [apply safe_get_loop_store | prim_store].
Qed.

Lemma scrape_day_store net rnd lk d :
  preserves same_store (scrape_day net rnd lk d).
Proof.
  unfold scrape_day, safe_get.
  walk_preserves same_store_refl same_store_trans;
    first [apply safe_get_loop_store | apply process_box_store | prim_store].
Qed.

Lemma safe_get_loop_ledger net rnd url base a n :
  preserves same_ledger (safe_get_loop net rnd url base a n).
Proof.
  revert a. induction n as [|n IH]; intros a; simpl;
    walk_preserves same_ledger_refl same_ledger_trans; prim_store.
Qed.

Lemma process_box_ledger net rnd d ds box :
  preserves same_ledger (process_box net rnd d ds box).
Proof.
  unfold process_box, safe_get, sleep_uniform.
  walk_preserves same_ledger_refl same_ledger_trans;
    first [apply safe_get_loop_ledger | prim_store].
Qed.

Ltac prim_events :=
  first
    [ intros ?s; exists []; simpl; rewrite app_nil_r; reflexivity
    | intros ?s; eexists; reflexivity
    | eassumption | auto ].

Lemma safe_get_loop_events net rnd url base a n :
  preserves events_grow (safe_get_loop net rnd url base a n).
Proof.
  revert a. induction n as [|n IH]; intros a; simpl;
    walk_preserves events_grow_refl events_grow_trans; prim_events.
Qed.

Lemma process_box_events net rnd d ds box :
  preserves events_grow (process_box net rnd d ds box).
Proof.
  unfold process_box, safe_get, sleep_uniform.
  walk_preserves events_grow_refl events_grow_trans;
    first [apply safe_get_loop_events | prim_events].
Qed.

Lemma scrape_day_events net rnd lk d :
  preserves events_grow (scrape_day net rnd lk d).
Proof.
  unfold scrape_day, safe_get.
  walk_preserves events_grow_refl events_grow_trans;
    first [apply safe_get_loop_events | apply process_box_events | prim_events].
Qed.

Lemma append_to_master_events df :
  preserves events_grow (append_to_master df).
Proof.
  unfold append_to_master, get_store, set_store.
  walk_preserves events_grow_refl events_grow_trans; prim_events.
Qed.

Lemma sleep_uniform_events rnd a b : preserves events_grow (sleep_uniform rnd a b).
Proof.
  unfold sleep_uniform.
  walk_preserves events_grow_refl events_grow_trans; prim_events.
Qed.

(** ** A time-invariant server makes [scrape_day]'s result a function of the day *)

Ltac prim_same := first [ intros ?s1 ?s2; reflexivity | eassumption | auto ].

Lemma safe_get_loop_same srv rnd1 rnd2 url base a n :
  same_val (safe_get_loop (fun _ => srv) rnd1 url base a n)
           (safe_get_loop (fun _ => srv) rnd2 url base a n).
Proof.
  revert a. induction n as [|n IH]; intros a; simpl; walk_same_val; prim_same.
Qed.

Lemma process_box_same srv rnd1 rnd2 d ds box :
  same_val (process_box (fun _ => srv) rnd1 d ds box)
           (process_box (fun _ => srv) rnd2 d ds box).
Proof.
  unfold process_box, safe_get, sleep_uniform.
  walk_same_val; first [apply safe_get_loop_same | prim_same].
Qed.

Lemma scrape_day_same srv rnd1 rnd2 lk1 lk2 d :
  same_val (scrape_day (fun _ => srv) rnd1 lk1 d)
           (scrape_day (fun _ => srv) rnd2 lk2 d).
Proof.
  unfold scrape_day, safe_get.
  walk_same_val; first [apply safe_get_loop_same | apply process_box_same | prim_same].
Qed.

(** ** What the rows returned by [scrape_day] look like *)

Definition returns {A} (P : A -> Prop) (m : M A) : Prop := forall s, P (fst (m s)).

Lemma returns_ret {A} (P : A -> Prop) a : P a -> returns P (ret a).
Proof. intros H s. exact H. Qed.

Lemma returns_bind {A B} (Q : A -> Prop) (P : B -> Prop) (m : M A) (k : A -> M B) :
  returns Q m -> (forall a, Q a -> returns P (k a)) -> returns P (bind m k).
Proof.
  intros Hm Hk s. unfold bind. pose proof (Hm s) as H.
  destruct (m s) as [a t]. apply Hk. exact H.
Qed.

Lemma returns_any {A B} (P : B -> Prop) (m : M A) (k : A -> M B) :
  (forall a, returns P (k a)) -> returns P (bind m k).
Proof.
  intros Hk. apply (returns_bind (fun _ => True)); [intros s; exact I|].
  intros a _. apply Hk.
Qed.

Lemma returns_mapM {A B} (P : B -> Prop) (f : A -> M B) (l : list A) :
  (forall x, returns P (f x)) -> returns (Forall P) (mapM f l).
Proof.
  intros Hf. induction l as [|x r IH]; simpl.
  - apply returns_ret. constructor.
  - apply (returns_bind P); [apply Hf|]. intros y Hy.
    apply (returns_bind (Forall P)); [exact IH|]. intros ys Hys.
    apply returns_ret. constructor; assumption.
Qed.

(** A row as [scrape_day] builds it for the date string [ds]. *)
Definition good_row (ds : string) (r : Row) : Prop :=
  r_date r = ds /\ r_total r = r_home r + r_away r /\ r_margin r = r_home r - r_away r.

Lemma mk_row_good ds ht at_ hs as_ ot : good_row ds (mk_row ds ht at_ hs as_ ot).
Proof. unfold good_row, mk_row. simpl. repeat split; lia. Qed.

Lemma somes_Forall {A} (P : A -> Prop) (l : list (option A)) :
  Forall (fun o => match o with Some x => P x | None => True end) l -> Forall P (somes l).
Proof.
  induction 1 as [|[x|] r Hx Hr IH]; simpl; auto.
Qed.

Lemma summary_rows_good ds sms : Forall (good_row ds) (summary_rows ds sms).
Proof.
  unfold summary_rows. apply somes_Forall. apply Forall_forall.
  intros o Ho. apply in_map_iff in Ho as [sm [<- _]].
  unfold summary_row.
  destruct (concat (sum_tables sm)) as [|a [|b rest]]; auto.
  destruct (parse_team_rows a b) as [[[[? ?] ?] ?]|]; auto using mk_row_good.
Qed.

Lemma game_row_good ds g r : game_row ds g = Some r -> good_row ds r.
Proof.
  unfold game_row.
  destruct (fallback2 g _) as [teams scores].
  destruct (too_short teams scores); [discriminate|].
  destruct (last_opt teams), (hd_opt teams), (last_opt scores), (hd_opt scores);
    try discriminate.
  destruct (score_int s), (score_int s0); try discriminate.
  intros H. injection H as <-. apply mk_row_good.
Qed.

Lemma process_box_good net rnd d ds box :
  returns (fun o => match o with Some r => good_row ds r | None => True end)
          (process_box net rnd d ds box).
Proof.
  unfold process_box.
  destruct (box_href box) as [href|]; [|apply returns_ret; exact I].
  destruct (negb _); [apply returns_ret; exact I|].
  destruct (_ || _); [apply returns_ret; exact I|].
  destruct (existsb _ _); [apply returns_ret; exact I|].
  apply returns_any. intros [g|]; [|apply returns_ret; exact I].
  destruct (game_row ds g) as [r|] eqn:E; [|apply returns_ret; exact I].
  apply returns_any. intros _. apply returns_ret. eapply game_row_good; eassumption.
Qed.

Lemma existsb_last_kept {A K} (eqK : K -> K -> bool) (key : A -> K) (l : list A) x :
  In x (drop_duplicates_last eqK key l) -> In x l.
Proof.
  induction l as [|y r IH]; simpl; [tauto|].
  destruct (existsb _ r); simpl; intuition.
Qed.

Lemma drop_duplicates_last_Forall {A K} (P : A -> Prop) eqK (key : A -> K) l :
  Forall P l -> Forall P (drop_duplicates_last eqK key l).
Proof.
  rewrite !Forall_forall. intros H x Hx. apply H. eapply existsb_last_kept; eassumption.
Qed.

Lemma scrape_day_good net rnd lk d :
  returns (Forall (good_row (date_str d))) (scrape_day net rnd lk d).
Proof.
  unfold scrape_day. apply returns_any. intros [soup|]; [|apply returns_ret; constructor].
  apply (returns_bind (Forall (fun o => match o with Some r => good_row (date_str d) r
                                                  | None => True end))).
  { apply returns_mapM. intros box. apply process_box_good. }
  intros brs Hbrs.
  assert (Hall : Forall (good_row (date_str d))
                   ((if year d <=? 2003 then summary_rows (date_str d) (summaries_m soup) else [])
                    ++ somes brs)).
  { apply Forall_app. split.
    - destruct (year d <=? 2003); [apply summary_rows_good | constructor].
    - apply somes_Forall. exact Hbrs. }
  destruct (_ ++ somes brs) as [|r rs] eqn:E.
  - apply returns_any. intros _. apply returns_ret. constructor.
  - apply returns_any. intros _. apply returns_ret.
    apply drop_duplicates_last_Forall. exact Hall.
Qed.

(** ** The request client *)

Lemma concat_map_seq_shift {B} (f : nat -> list B) n :
  concat (map f (seq 0 (S n))) = f O ++ concat (map (fun k => f (S k)) (seq 0 n)).
Proof. simpl. rewrite <- seq_shift, map_map. reflexivity. Qed.

(** [safe_get]'s loop from attempt [a] with [n] attempts left: it issues
    [A <= n] requests, retrying only after a transport error or a 429,
    stops early only on another response, returns the page exactly when
    the last response is a 200, and emits one [attempt_block] per
    request. *)
Ltac split7 := split; [|split; [|split; [|split; [|split; [|split]]]]].

Lemma safe_get_loop_contract net rnd url base n : forall a s,
  let res := fst (safe_get_loop net rnd url base a n s) in
  let s' := snd (safe_get_loop net rnd url base a n s) in
  let resp := fun k => net (reqs s + k)%nat url in
  exists (A : nat) (jit : nat -> Q),
    (A <= n)%nat /\
    (forall k, (S k < A)%nat -> retryable (resp k) = true) /\
    (A = n \/ exists k, A = S k /\ retryable (resp k) = false) /\
    res = match A with O => None | S k => ok_body (resp k) end /\
    reqs s' = (reqs s + A)%nat /\
    (forall k, exists i, jit k = (1 + (3 - 1) * rnd i)%Q) /\
    events s' = events s ++ concat (map (fun k => attempt_block url base (resp k) (a + k) (jit k))
                                        (seq 0 A)).
Proof.
  induction n as [|n IH]; intros a s res s' resp.
  - exists O, (fun _ => (1 + (3 - 1) * rnd O)%Q). subst res s'. simpl.
    split7.
    + lia.
    + intros k Hk. lia.
    + left. reflexivity.
    + reflexivity.
    + lia.
    + intros k. exists O. reflexivity.
    + rewrite app_nil_r. reflexivity.
  - subst res s' resp. simpl. unfold bind, http_get. simpl.
    destruct (net (reqs s) url) as [|c b] eqn:Er.
    + (* transport error: fixed delay, next attempt *)
      unfold sleep. simpl.
      set (s1 := mkSt (S (reqs s)) (draws s) ((events s ++ [EvGet url]) ++ [EvSleep base])
                      (ledger s) (store s)).
      destruct (IH (S a) s1) as (A & jit & HA & Hretry & Hstop & Hres & Hreqs & Hjit & Hev).
      simpl in *.
      exists (S A), (fun k => match k with O => jit O | S k' => jit k' end).
      split7.
      * lia.
      * intros [|k] Hk.
        -- rewrite Nat.add_0_r, Er. reflexivity.
        -- replace (reqs s + S k)%nat with (S (reqs s) + k)%nat by lia.
           apply Hretry. lia.
      * destruct Hstop as [->|(k & -> & Hk)]; [left; reflexivity|].
        right. exists (S k). split; [reflexivity|].
        replace (reqs s + S k)%nat with (S (reqs s) + k)%nat by lia. exact Hk.
      * rewrite Hres. destruct A as [|k].
        -- rewrite Nat.add_0_r, Er. reflexivity.
        -- replace (reqs s + S k)%nat with (S (reqs s) + k)%nat by lia. reflexivity.
      * rewrite Hreqs. lia.
      * intros [|k]; apply Hjit.
      * rewrite Hev, concat_map_seq_shift, Nat.add_0_r, Nat.add_0_r, Er.
        simpl. rewrite <- !app_assoc. simpl. do 4 f_equal.
        apply map_ext. intros k.
        replace (reqs s + S k)%nat with (S (reqs s) + k)%nat by lia.
        replace (a + S k)%nat with (S a + k)%nat by lia. reflexivity.
    + unfold sleep. simpl.
      destruct (c =? 200) eqn:E200.
      * (* 200: the page *)
        exists 1%nat, (fun _ => (1 + (3 - 1) * rnd O)%Q). simpl.
        split7.
        -- lia.
        -- intros k Hk. lia.
        -- right. exists O. split; [reflexivity|].
           rewrite Nat.add_0_r, Er. simpl. apply Z.eqb_eq in E200. subst. reflexivity.
        -- rewrite Nat.add_0_r, Er. simpl. rewrite E200. reflexivity.
        -- lia.
        -- intros k. exists O. reflexivity.
        -- rewrite Nat.add_0_r, Nat.add_0_r, Er. simpl.
           apply Z.eqb_eq in E200. subst. simpl. rewrite <- app_assoc. reflexivity.
      * destruct (c =? 429) eqn:E429.
        -- (* 429: backoff, next attempt *)
           unfold uniform. simpl.
           set (j := (1 + (3 - 1) * rnd (draws s))%Q).
           set (s1 := mkSt (S (reqs s)) (S (draws s))
                           (((events s ++ [EvGet url]) ++ [EvSleep (31 # 10)])
                              ++ [EvSleep (base * inject_Z (2 ^ Z.of_nat a) + j)%Q])
                           (ledger s) (store s)).
           destruct (IH (S a) s1) as (A & jit & HA & Hretry & Hstop & Hres & Hreqs & Hjit & Hev).
           simpl in *.
           exists (S A), (fun k => match k with O => j | S k' => jit k' end).
           split7.
           ++ lia.
           ++ intros [|k] Hk.
              ** rewrite Nat.add_0_r, Er. simpl. exact E429.
              ** replace (reqs s + S k)%nat with (S (reqs s) + k)%nat by lia.
                 apply Hretry. lia.
           ++ destruct Hstop as [->|(k & -> & Hk)]; [left; reflexivity|].
              right. exists (S k). split; [reflexivity|].
              replace (reqs s + S k)%nat with (S (reqs s) + k)%nat by lia. exact Hk.
           ++ rewrite Hres. destruct A as [|k].
              ** rewrite Nat.add_0_r, Er. simpl. rewrite E200. reflexivity.
              ** replace (reqs s + S k)%nat with (S (reqs s) + k)%nat by lia. reflexivity.
           ++ rewrite Hreqs. lia.
           ++ intros [|k]; [exists (draws s); reflexivity | apply Hjit].
           ++ rewrite Hev, concat_map_seq_shift, Nat.add_0_r, Nat.add_0_r, Er.
              simpl. rewrite E429. rewrite <- !app_assoc. simpl. do 5 f_equal.
              apply map_ext. intros k.
              replace (reqs s + S k)%nat with (S (reqs s) + k)%nat by lia.
              replace (a + S k)%nat with (S a + k)%nat by lia. reflexivity.
        -- (* any other status: give up at once *)
           exists 1%nat, (fun _ => (1 + (3 - 1) * rnd O)%Q). simpl.
           split7.
           ++ lia.
           ++ intros k Hk. lia.
           ++ right. exists O. split; [reflexivity|].
              rewrite Nat.add_0_r, Er. simpl. exact E429.
           ++ rewrite Nat.add_0_r, Er. simpl. rewrite E200. reflexivity.
           ++ lia.
           ++ intros k. exists O. reflexivity.
           ++ rewrite Nat.add_0_r, Nat.add_0_r, Er. simpl. rewrite E429.
              rewrite <- app_assoc. reflexivity.
Qed.

(** ** The rebuild parser *)

Ltac destruct_matches :=
  repeat match goal with
  | |- context [match ?x with _ => _ end] => destruct x eqn:?
  | |- context [if ?b then _ else _] => destruct b eqn:?
  end.

Lemma parse_box_shape w d box r :
  Rebuild.parse_box w d box = Some r ->
  (exists href, Rebuild.g_link box = Some href /\ contains w href = true) /\
  Rebuild.q_total r = Rebuild.q_home r + Rebuild.q_away r /\
  Rebuild.q_margin r = Rebuild.q_home r - Rebuild.q_away r.
Proof.
  unfold Rebuild.parse_box.
  destruct (negb _) eqn:Emen; [discriminate|].
  destruct (Rebuild.g_link box) as [href|]; [|discriminate].
  destruct (contains w href) eqn:Ew; [|discriminate].
  destruct (Rebuild.g_rows box) as [|tr1 [|tr2 rest]]; try discriminate.
  destruct (Rebuild.row_to_team_score tr1) as [t1 s1].
  destruct (Rebuild.row_to_team_score tr2) as [t2 s2].
  destruct (Rebuild.falsy_str t1 || Rebuild.falsy_str t2); [discriminate|].
  destruct t1, t2, s1, s2; try discriminate.
  intros H. injection H as <-. simpl.
  split; [exists href; split; [reflexivity | exact Ew] | split; reflexivity].
Qed.

Lemma drop_duplicates_first_incl {A K} eqK (key : A -> K) seen l x :
  In x (Rebuild.drop_duplicates_first eqK key seen l) -> In x l.
Proof.
  revert seen. induction l as [|y r IH]; intros seen; simpl; [tauto|].
  destruct (existsb _ seen); simpl.
  - intros H. right. eapply IH. exact H.
  - intros [H|H]; [left; exact H | right; eapply IH; exact H].
Qed.

Lemma parse_day_from_boxes boxes d r :
  In r (Rebuild.parse_day boxes d) ->
  exists box, In box boxes /\ Rebuild.parse_box (Rebuild.ymd d) d box = Some r.
Proof.
  unfold Rebuild.parse_day.
  assert (Hsomes : forall l, In r (somes (map (Rebuild.parse_box (Rebuild.ymd d) d) l)) ->
                   exists box, In box l /\ Rebuild.parse_box (Rebuild.ymd d) d box = Some r).
  { induction l as [|b l IH]; simpl; [tauto|].
    destruct (Rebuild.parse_box _ d b) eqn:E; simpl.
    - intros [<-|H]; [exists b; auto | destruct (IH H) as (x & ? & ?); exists x; auto].
    - intros H. destruct (IH H) as (x & ? & ?). exists x; auto. }
  destruct (somes _) as [|g gs] eqn:Eg; [simpl; tauto|].
  intros H. apply drop_duplicates_first_incl in H. rewrite <- Eg in H. apply Hsomes, H.
Qed.

(** [parse_day] keeps only blocks whose boxscore link holds the requested
    date (the guard of the rebuild variant). *)
Lemma parse_day_date_guard boxes d r :
  In r (Rebuild.parse_day boxes d) ->
  exists box href, In box boxes /\ Rebuild.g_link box = Some href
                   /\ contains (Rebuild.ymd d) href = true.
Proof.
  intros H. destruct (parse_day_from_boxes _ _ _ H) as (box & Hin & Hp).
  destruct (parse_box_shape _ _ _ _ Hp) as [(href & H1 & H2) _].
  exists box, href. auto.
Qed.

(** ** The deduplication of a day's rows *)

Lemma eq_key3_iff a b : eq_key3 a b = true <-> a = b.
Proof.
  destruct a as [[a1 a2] a3], b as [[b1 b2] b3]. unfold eq_key3.
  rewrite !andb_true_iff, !String.eqb_eq. split.
  - intros [[-> ->] ->]. reflexivity.
  - intros H. injection H as -> -> ->. auto.
Qed.

Lemma eq_key4_iff a b : Rebuild.eq_key4 a b = true <-> a = b.
Proof.
  destruct a as [[[a1 a2] a3] a4], b as [[[b1 b2] b3] b4]. unfold Rebuild.eq_key4.
  rewrite !andb_true_iff, !String.eqb_eq, !Z.eqb_eq. split.
  - intros [[[-> ->] ->] ->]. reflexivity.
  - intros H. injection H as -> -> -> ->. auto.
Qed.

Section Dedup.

Context {A K : Type} (eqK : K -> K -> bool) (key : A -> K).
Hypothesis eqK_iff : forall a b, eqK a b = true <-> a = b.

(** [keep="last"]: an element survives exactly when no later element
    shares its key. *)
Lemma drop_duplicates_last_spec l x :
  In x (drop_duplicates_last eqK key l) <->
  exists i, nth_error l i = Some x /\
            forall j y, (i < j)%nat -> nth_error l j = Some y -> key y <> key x.
Proof.
  induction l as [|h r IH]; simpl.
  - split; [tauto|]. intros (i & Hi & _). destruct i; discriminate.
  - destruct (existsb (fun y => eqK (key h) (key y)) r) eqn:Ex.
    + rewrite IH. split.
      * intros (i & Hi & Hlater). exists (S i). split; [exact Hi|].
        intros [|j] y Hj Hy; [lia|]. apply (Hlater j); [lia | exact Hy].
      * intros ([|i] & Hi & Hlater).
        -- exfalso. simpl in Hi. injection Hi as <-.
           apply existsb_exists in Ex as (y & Hy & Hk). apply eqK_iff in Hk.
           apply In_nth_error in Hy as (j & Hj).
           apply (Hlater (S j) y); [lia | exact Hj | symmetry; exact Hk].
        -- exists i. split; [exact Hi|]. intros j y Hj Hy.
           apply (Hlater (S j)); [lia | exact Hy].
    + simpl. rewrite IH. split.
      * intros [<-|(i & Hi & Hlater)].
        -- exists O. split; [reflexivity|]. intros [|j] y Hj Hy; [lia|]. simpl in Hy.
           intros Hk. assert (existsb (fun y => eqK (key h) (key y)) r = true) as Hc.
           { apply existsb_exists. exists y. split; [eapply nth_error_In; exact Hy|].
             apply eqK_iff. symmetry. exact Hk. }
           congruence.
        -- exists (S i). split; [exact Hi|].
           intros [|j] y Hj Hy; [lia|]. apply (Hlater j); [lia | exact Hy].
      * intros ([|i] & Hi & Hlater).
        -- left. simpl in Hi. congruence.
        -- right. exists i. split; [exact Hi|]. intros j y Hj Hy.
           apply (Hlater (S j)); [lia | exact Hy].
Qed.

Lemma existsb_eqK_in k seen : existsb (eqK k) seen = true <-> In k seen.
Proof.
  rewrite existsb_exists. split.
  - intros (k' & Hin & Hk). apply eqK_iff in Hk. subst. exact Hin.
  - intros Hin. exists k. split; [exact Hin | apply eqK_iff; reflexivity].
Qed.

(** [keep="first"] with the keys already [seen]: an element survives
    exactly when its key is new and no earlier element shares it. *)
Lemma drop_duplicates_first_spec l : forall seen x,
  In x (Rebuild.drop_duplicates_first eqK key seen l) <->
  exists i, nth_error l i = Some x /\ ~ In (key x) seen /\
            forall j y, (j < i)%nat -> nth_error l j = Some y -> key y <> key x.
Proof.
  induction l as [|h r IH]; intros seen x; simpl.
  - split; [tauto|]. intros (i & Hi & _). destruct i; discriminate.
  - destruct (existsb (eqK (key h)) seen) eqn:Ex.
    + apply existsb_eqK_in in Ex. rewrite IH. split.
      * intros (i & Hi & Hn & Hearlier). exists (S i). split; [exact Hi|]. split; [exact Hn|].
        intros [|j] y Hj Hy.
        -- simpl in Hy. injection Hy as <-. intros Hk. apply Hn. rewrite <- Hk. exact Ex.
        -- apply (Hearlier j); [lia | exact Hy].
      * intros ([|i] & Hi & Hn & Hearlier).
        -- simpl in Hi. injection Hi as <-. contradiction.
        -- exists i. split; [exact Hi|]. split; [exact Hn|]. intros j y Hj Hy.
           apply (Hearlier (S j)); [lia | exact Hy].
    + simpl. rewrite IH. split.
      * intros [<-|(i & Hi & Hn & Hearlier)].
        -- exists O. split; [reflexivity|]. split.
           ++ intros Hin. apply existsb_eqK_in in Hin. congruence.
           ++ intros j y Hj. lia.
        -- exists (S i). split; [exact Hi|]. split; [intros H; apply Hn; right; exact H|].
           intros [|j] y Hj Hy.
           ++ simpl in Hy. injection Hy as <-. intros Hk. apply Hn. left. exact Hk.
           ++ apply (Hearlier j); [lia | exact Hy].
      * intros ([|i] & Hi & Hn & Hearlier).
        -- left. simpl in Hi. congruence.
        -- right. exists i. split; [exact Hi|]. split.
           ++ intros [Hk|Hk]; [|contradiction].
              apply (Hearlier O h); [lia | reflexivity | exact Hk].
           ++ intros j y Hj Hy. apply (Hearlier (S j)); [lia | exact Hy].
Qed.

End Dedup.

Lemma scrape_day_dedup net rnd lk d s :
  exists rows, fst (scrape_day net rnd lk d s) = drop_duplicates_last eq_key3 key3 rows.
Proof.
  revert s. change (returns (fun out => exists rows, out = drop_duplicates_last eq_key3 key3 rows)
                            (scrape_day net rnd lk d)).
  unfold scrape_day. apply returns_any. intros [soup|].
  2:{ apply returns_ret. exists []. reflexivity. }
  apply returns_any. intros brs.
  destruct (_ ++ somes brs) as [|r rs].
  - apply returns_any. intros _. apply returns_ret. exists []. reflexivity.
  - apply returns_any. intros _. apply returns_ret. eexists. reflexivity.
Qed.

(** ** The orchestrator *)

Lemma bind_first_event {A B} (m : M A) (k : A -> M B) e s :
  (exists ext, events (snd (m s)) = events s ++ e :: ext) ->
  (forall a, preserves events_grow (k a)) ->
  exists ext, events (snd (bind m k s)) = events s ++ e :: ext.
Proof.
  intros [ext He] Hk. unfold bind. destruct (m s) as [a t] eqn:Em. simpl in He.
  destruct (Hk a t) as [ext' He']. rewrite He', He.
  exists (ext ++ ext'). rewrite <- app_assoc. reflexivity.
Qed.

Lemma safe_get_first_event net rnd url base a n s :
  n <> O ->
  exists ext, events (snd (safe_get_loop net rnd url base a n s)) = events s ++ EvGet url :: ext.
Proof.
  intros Hn. destruct n as [|n]; [contradiction|].
  cbn [safe_get_loop]. apply bind_first_event.
  - exists []. reflexivity.
  - intros r. cbv beta. destruct r.
    + apply (preserves_bind _ events_grow_trans); [intros t; eexists; reflexivity|].
      intros _. apply safe_get_loop_events.
    + walk_preserves events_grow_refl events_grow_trans;
        first [apply safe_get_loop_events | prim_events].
Qed.

(** Every day [scrape_day] handles starts with a request for its
    scoreboard page. *)
Lemma scrape_day_first_event net rnd lk d s :
  exists ext, events (snd (scrape_day net rnd lk d s)) = events s ++ EvGet (scoreboard_url d) :: ext.
Proof.
  unfold scrape_day, safe_get. apply bind_first_event.
  - apply safe_get_first_event. discriminate.
  - walk_preserves events_grow_refl events_grow_trans;
      first [apply process_box_events | prim_events].
Qed.

Lemma run_days_fetches_all net rnd lk days : forall s d,
  In d days -> In (EvGet (scoreboard_url d)) (events (snd (run_days net rnd lk [] days s))).
Proof.
  induction days as [|d0 days IH]; intros s d Hd; [destruct Hd|].
  simpl run_days. unfold bind at 1. simpl mem_str. cbv iota beta.
  destruct Hd as [<-|Hd].
  - destruct (scrape_day_first_event net rnd lk d0 s) as [ext Hext].
    unfold bind at 1. destruct (scrape_day net rnd lk d0 s) as [df t] eqn:E. simpl in Hext.
    pose proof (append_to_master_events df t) as [e1 H1].
    destruct (append_to_master df t) as [u1 t1]. simpl in H1.
    unfold bind. destruct (sleep_uniform rnd 60 90 t1) as [u2 t2] eqn:E2.
    pose proof (sleep_uniform_events rnd 60 90 t1) as [e2 H2]. rewrite E2 in H2. simpl in H2.
    destruct days as [|d1 rest]; simpl.
    + rewrite H2, H1, Hext. apply in_or_app. left. apply in_or_app. left.
      apply in_or_app. right. left. reflexivity.
    + assert (Hg : preserves events_grow (run_days net rnd lk [] (d1 :: rest))).
      { clear. induction (d1 :: rest) as [|x xs IHx]; simpl.
        - apply preserves_ret, events_grow_refl.
        - apply (preserves_bind _ events_grow_trans).
          + apply (preserves_bind _ events_grow_trans); [apply scrape_day_events|].
            intros df. apply append_to_master_events.
          + intros _. apply (preserves_bind _ events_grow_trans);
              [apply sleep_uniform_events | intros _; exact IHx]. }
      destruct (Hg t2) as [e3 H3]. simpl in H3. rewrite H3, H2, H1, Hext.
      rewrite <- !app_assoc. apply in_or_app. right. left. reflexivity.
  - destruct ((df <- scrape_day net rnd lk d0 ;; append_to_master df) s) as [u t].
    unfold bind. destruct (sleep_uniform rnd 60 90 t) as [u2 t2].
    apply IH. exact Hd.
Qed.

(** ** Re-running the orchestrator *)

Lemma mem_str_iff x l : mem_str x l = true <-> In x l.
Proof.
  unfold mem_str. rewrite existsb_exists. split.
  - intros (y & Hy & Hxy). apply String.eqb_eq in Hxy. subst. exact Hy.
  - intros Hx. exists x. split; [exact Hx | apply String.eqb_refl].
Qed.

Lemma append_to_master_store df s :
  store (snd (append_to_master df s)) = app_store (store s) df.
Proof.
  destruct df as [|r rs]; [reflexivity|].
  unfold append_to_master, app_store, bind, get_store, set_store.
  destruct (store s); reflexivity.
Qed.

Lemma sleep_uniform_store rnd a b s : store (snd (sleep_uniform rnd a b s)) = store s.
Proof. reflexivity. Qed.

Lemma get_existing_dates_dates s : get_existing_dates s = (dates_of (store s), s).
Proof. reflexivity. Qed.

(** The fold of the day loop over the output file, with [R d] the rows
    of day [d]. *)
Definition fold_store (R : date -> list Row) (E : list string) (days : list date)
  (f : option (list CsvLine)) : option (list CsvLine) :=
  fold_left (fun f d => if mem_str (date_str d) E then f else app_store f (R d)) days f.

Lemma run_days_store srv rnd lk E days : forall s s0,
  store (snd (run_days (fun _ => srv) rnd lk E days s)) =
  fold_store (fun d => fst (scrape_day (fun _ => srv) rnd lk d s0)) E days (store s).
Proof.
  induction days as [|d days IH]; intros s s0; [reflexivity|].
  simpl run_days. unfold bind at 1.
  destruct ((if mem_str (date_str d) E then ret tt
             else df <- scrape_day (fun _ => srv) rnd lk d ;; append_to_master df) s)
    as [u t] eqn:E1.
  assert (Ht : store t = (if mem_str (date_str d) E then store s
                          else app_store (store s) (fst (scrape_day (fun _ => srv) rnd lk d s0)))).
  { destruct (mem_str (date_str d) E).
    - injection E1 as _ <-. reflexivity.
    - unfold bind in E1. destruct (scrape_day (fun _ => srv) rnd lk d s) as [df t0] eqn:E0.
      replace t with (snd (append_to_master df t0)) by (rewrite E1; reflexivity).
      rewrite append_to_master_store.
      pose proof (scrape_day_store (fun _ => srv) rnd lk d s) as Hs. rewrite E0 in Hs.
      unfold same_store in Hs. simpl in Hs. rewrite Hs.
      pose proof (scrape_day_same srv rnd rnd lk lk d s s0) as Hv. rewrite E0 in Hv.
      simpl in Hv. rewrite Hv. reflexivity. }
  unfold bind. destruct (sleep_uniform rnd 60 90 t) as [u2 t2] eqn:E2.
  rewrite (IH t2 s0). unfold fold_store. simpl.
  replace (store t2) with (store t) by (rewrite <- (sleep_uniform_store rnd 60 90 t), E2; reflexivity).
  rewrite Ht. reflexivity.
Qed.

Lemma app_store_dates f rows :
  header_ok f -> header_ok (app_store f rows) /\
                 dates_of (app_store f rows) = dates_of f ++ map r_date rows.
Proof.
  intros [-> | (rest & ->)]; destruct rows as [|r rs].
  - split; [left; reflexivity | reflexivity].
  - split; [right; eexists; reflexivity|]. simpl. rewrite ?map_map. reflexivity.
  - split; [right; eexists; reflexivity | simpl; rewrite app_nil_r; reflexivity].
  - split; [right; eexists; reflexivity|]. simpl. rewrite ?map_app. simpl. rewrite ?map_map. reflexivity.
Qed.

Lemma fold_store_first_run (R : date -> list Row) E days :
  (forall d, Forall (fun r => r_date r = date_str d) (R d)) ->
  forall f, header_ok f ->
  header_ok (fold_store R E days f) /\
  incl (dates_of f) (dates_of (fold_store R E days f)) /\
  (forall d, In d days -> mem_str (date_str d) E = false -> R d <> [] ->
             In (date_str d) (dates_of (fold_store R E days f))).
Proof.
  intros HR. induction days as [|d days IH]; intros f Hf.
  - split; [exact Hf|]. split; [apply incl_refl | intros d []].
  - unfold fold_store. simpl. fold (fold_store R E days).
    set (f' := if mem_str (date_str d) E then f else app_store f (R d)).
    assert (Hf' : header_ok f' /\ incl (dates_of f) (dates_of f') /\
                  (mem_str (date_str d) E = false -> R d <> [] -> In (date_str d) (dates_of f'))).
    { subst f'. destruct (mem_str (date_str d) E).
      - split; [exact Hf|]. split; [apply incl_refl | discriminate].
      - destruct (app_store_dates f (R d) Hf) as [Hok Hd]. rewrite Hd.
        split; [exact Hok|]. split; [apply incl_appl, incl_refl|].
        intros _ Hne. apply in_or_app. right.
        destruct (R d) as [|r rs] eqn:ER; [contradiction|].
        specialize (HR d). rewrite ER in HR. inversion HR; subst.
        left. assumption. }
    destruct Hf' as (Hok' & Hincl' & Hnew').
    destruct (IH f' Hok') as (Hok & Hincl & Hnew).
    split; [exact Hok|]. split; [eapply incl_tran; eassumption|].
    intros d0 [<-|Hin] Hm Hne.
    + apply Hincl. apply Hnew'; assumption.
    + apply Hnew; assumption.
Qed.

Lemma fold_store_no_rows (R : date -> list Row) E days f :
  (forall d, In d days -> mem_str (date_str d) E = false -> R d = []) ->
  fold_store R E days f = f.
Proof.
  revert f. induction days as [|d days IH]; intros f H; [reflexivity|].
  unfold fold_store. simpl. fold (fold_store R E days).
  destruct (mem_str (date_str d) E) eqn:Em.
  - apply IH. intros d0 Hd0. apply H. right. exact Hd0.
  - rewrite (H d (or_introl eq_refl) Em). apply IH. intros d0 Hd0. apply H. right. exact Hd0.
Qed.

Lemma run_auto_scrape_store srv rnd lk start_date end_date s s0 :
  store (snd (run_auto_scrape (fun _ => srv) rnd lk start_date end_date s)) =
  fold_store (fun d => fst (scrape_day (fun _ => srv) rnd lk d s0))
             (dates_of (store s)) (range_days start_date end_date) (store s).
Proof.
  unfold run_auto_scrape, bind. rewrite get_existing_dates_dates.
  apply run_days_store.
Qed.

Lemma scrape_day_dates net rnd lk d s :
  Forall (fun r => r_date r = date_str d) (fst (scrape_day net rnd lk d s)).
Proof.
  pose proof (scrape_day_good net rnd lk d s) as H.
  eapply Forall_impl; [|exact H]. intros r [Hr _]. exact Hr.
Qed.

Lemma drop_duplicates_last_nonempty {A K} (eqK : K -> K -> bool) (key : A -> K) l :
  l <> [] -> drop_duplicates_last eqK key l <> [].
Proof.
  induction l as [|x r IH]; [contradiction|]. intros _. simpl.
  destruct (existsb _ r) eqn:E; [|discriminate].
  apply IH. intros ->. discriminate.
Qed.

Lemma scrape_day_empty_ledger net rnd lk d s :
  fst (scrape_day net rnd lk d s) = [] ->
  ledger (snd (scrape_day net rnd lk d s)) = ledger s \/
  ledger (snd (scrape_day net rnd lk d s)) = ledger s ++ [zero_line d].
Proof.
  pose proof (safe_get_loop_ledger net rnd (scoreboard_url d) (8 # 1) 0 4 s) as H1.
  unfold scrape_day, safe_get, bind. cbv zeta.
  destruct (safe_get_loop net rnd (scoreboard_url d) (8 # 1) 0 4 s)
    as [[soup|] t] eqn:E1; unfold same_ledger in H1; simpl in H1.
  - pose proof (preserves_mapM same_ledger same_ledger_refl same_ledger_trans
                  (process_box net rnd d (date_str d)) (gamelinks soup)
                  (process_box_ledger net rnd d (date_str d)) t) as H2.
    destruct (mapM (process_box net rnd d (date_str d)) (gamelinks soup) t) as [brs t2] eqn:E2.
    unfold same_ledger in H2. simpl in H2.
    destruct ((if year d <=? 2003 then summary_rows (date_str d) (summaries_m soup) else [])
              ++ somes brs) as [|r rs] eqn:E3.
    + intros _. unfold log_write, ret. simpl. rewrite H2, H1.
      destruct lk; [left; reflexivity | right; reflexivity].
    + unfold log_write, ret. simpl. intros Hnil. exfalso.
      exact (drop_duplicates_last_nonempty eq_key3 key3 (r :: rs) ltac:(discriminate) Hnil).
  - intros _. left. exact H1.
Qed.

(* ------------------------------------------------------------------ *)
(** ** Properties of the scraper, its rebuild and its rescrape pass *)

(** C4: every record built by [scrape_day] (all its extraction paths) and
    by the rebuild's [parse_day] has [total = home + away] and
    [margin = home - away], computed from the two parsed scores. *)
Theorem total_margin_recomputed :
  (forall net rnd lk d s,
     Forall (fun r => r_total r = r_home r + r_away r /\ r_margin r = r_home r - r_away r)
            (fst (scrape_day net rnd lk d s))) /\
  (forall boxes d,
     Forall (fun r => Rebuild.q_total r = Rebuild.q_home r + Rebuild.q_away r /\
                      Rebuild.q_margin r = Rebuild.q_home r - Rebuild.q_away r)
            (Rebuild.parse_day boxes d)).
Proof.
  split.
  - intros net rnd lk d s.
    pose proof (scrape_day_good net rnd lk d s) as H.
    eapply Forall_impl; [|exact H]. intros r (_ & Ht & Hm). auto.
  - intros boxes d. apply Forall_forall. intros r Hr.
    destruct (parse_day_from_boxes _ _ _ Hr) as (box & _ & Hp).
    apply (parse_box_shape _ _ _ _ Hp).
Qed.

(** C5: [safe_get] issues at most [retries] requests; it tries again only
    after a transport error or an HTTP 429, and only then: any other
    response ends the loop, and the page is returned exactly when that
    last response is an HTTP 200 (any other status gives [None] right
    away). Request [k] is followed by a sleep of [base_delay] after a
    transport error, or by the 3.1 s pacing and, for a 429, the backoff
    [base_delay * 2^k + uniform(1, 3)]. *)
Theorem safe_get_retry_policy net rnd url retries base s :
  let res := fst (safe_get net rnd url retries base s) in
  let s' := snd (safe_get net rnd url retries base s) in
  let resp := fun k => net (reqs s + k)%nat url in
  exists (A : nat) (jit : nat -> Q),
    (A <= retries)%nat /\
    (forall k, (S k < A)%nat -> retryable (resp k) = true) /\
    (A = retries \/ exists k, A = S k /\ retryable (resp k) = false) /\
    res = match A with O => None | S k => ok_body (resp k) end /\
    reqs s' = (reqs s + A)%nat /\
    (forall k, exists i, jit k = (1 + (3 - 1) * rnd i)%Q) /\
    events s' = events s ++ concat (map (fun k => attempt_block url base (resp k) k (jit k))
                                        (seq 0 A)).
Proof.
  intros res s' resp.
  exact (safe_get_loop_contract net rnd url base retries O s).
Qed.

(** The rows [scrape_day] returns are the day's candidates (the summary
    rows of an old season, then the rows of the [td.gamelink] boxes, in
    page order) after [drop_duplicates(keep="last")] on (date, home team,
    away team). *)
Lemma scrape_day_candidates net rnd lk d s :
  fst (scrape_day net rnd lk d s) =
  match safe_get net rnd (scoreboard_url d) 4 (8 # 1) s with
  | (None, _) => []
  | (Some soup, t) =>
      drop_duplicates_last eq_key3 key3
        ((if year d <=? 2003 then summary_rows (date_str d) (summaries_m soup) else []) ++
         somes (fst (mapM (process_box net rnd d (date_str d)) (gamelinks soup) t)))
  end.
Proof.
  unfold scrape_day, bind. cbv zeta.
  destruct (safe_get net rnd (scoreboard_url d) 4 (8 # 1) s) as [[soup|] t]; [|reflexivity].
  destruct (mapM (process_box net rnd d (date_str d)) (gamelinks soup) t) as [brs t2].
  simpl. destruct (_ ++ somes brs); unfold log_write, ret; reflexivity.
Qed.

(** C2 (as the code does it): [scrape_day] collapses a day's candidate
    rows (the summary rows of an old season, then the rows of the game
    links, in page order) by (date, home team, away team), keeping the
    last occurrence, so two
    candidates that differ only in a score collapse into the later one;
    [parse_day] collapses by (home team, away team, home score, away
    score), keeping the first occurrence. *)
Theorem day_dedup_keys :
  (forall net rnd lk d s,
     fst (scrape_day net rnd lk d s) =
     match safe_get net rnd (scoreboard_url d) 4 (8 # 1) s with
     | (None, _) => []
     | (Some soup, t) =>
         drop_duplicates_last eq_key3 key3
           ((if year d <=? 2003 then summary_rows (date_str d) (summaries_m soup) else []) ++
            somes (fst (mapM (process_box net rnd d (date_str d)) (gamelinks soup) t)))
     end) /\
  (forall rows x,
     In x (drop_duplicates_last eq_key3 key3 rows) <->
     exists i, nth_error rows i = Some x /\
               forall j y, (i < j)%nat -> nth_error rows j = Some y -> key3 y <> key3 x) /\
  (forall boxes d,
     Rebuild.parse_day boxes d =
     Rebuild.drop_duplicates_first Rebuild.eq_key4 Rebuild.key4 []
       (somes (map (Rebuild.parse_box (Rebuild.ymd d) d) boxes))) /\
  (forall rows x,
     In x (Rebuild.drop_duplicates_first Rebuild.eq_key4 Rebuild.key4 [] rows) <->
     exists i, nth_error rows i = Some x /\
               forall j y, (j < i)%nat -> nth_error rows j = Some y ->
                           Rebuild.key4 y <> Rebuild.key4 x).
Proof.
  split; [exact scrape_day_candidates|].
  split; [intros rows x; apply drop_duplicates_last_spec, eq_key3_iff|].
  split.
  - intros boxes d. unfold Rebuild.parse_day. destruct (somes _); reflexivity.
  - intros rows x. rewrite (drop_duplicates_first_spec _ _ eq_key4_iff).
    split.
    + intros (i & Hi & _ & H). exists i. auto.
    + intros (i & Hi & H). exists i. split; [exact Hi|]. split; [simpl; tauto | exact H].
Qed.

(** C2 counterexample: two game pages of 2010-01-05 parse to Duke at UNC
    70-65 and 70-66; [scrape_day] keeps only the second. *)
Lemma day_dedup_keys_counterexample :
  game_row (date_str Fixtures.jan5) (Fixtures.linescore_page "Duke" "UNC" 70 65)
    = Some (mk_row "2010-01-05" "UNC" "Duke" 65 70 false) /\
  game_row (date_str Fixtures.jan5) (Fixtures.linescore_page "Duke" "UNC" 70 66)
    = Some (mk_row "2010-01-05" "UNC" "Duke" 66 70 false) /\
  fst (scrape_day Fixtures.net_two_scores Fixtures.no_jitter false Fixtures.jan5 Fixtures.s_init)
    = [mk_row "2010-01-05" "UNC" "Duke" 66 70 false].
Proof. vm_compute. repeat split. Qed.

(** C10: [get_existing_dates] never fails: when the output file is absent
    or cannot be read as a CSV with a [date] column (for this or any other
    reader), it returns the empty set and changes nothing; the orchestrator
    then requests the scoreboard of every day of the range. *)
Theorem get_existing_dates_fallback net rnd lk start_date end_date s :
  (store s = None \/ exists f, store s = Some f /\ read_csv_dates f = None) ->
  get_existing_dates s = ([], s) /\
  (forall reader, (forall f, store s = Some f -> reader f = None) ->
                  get_existing_dates_with reader s = ([], s)) /\
  (forall d, In d (range_days start_date end_date) ->
     In (EvGet (scoreboard_url d))
        (events (snd (run_auto_scrape net rnd lk start_date end_date s)))).
Proof.
  intros Hs.
  assert (Hg : get_existing_dates s = ([], s)).
  { unfold get_existing_dates, get_existing_dates_with.
    destruct Hs as [-> | (f & -> & Hr)]; [reflexivity | rewrite Hr; reflexivity]. }
  split; [exact Hg|]. split.
  - intros reader Hr. unfold get_existing_dates_with.
    destruct (store s) as [f|] eqn:Ef; [rewrite (Hr f eq_refl); reflexivity | reflexivity].
  - intros d Hd. unfold run_auto_scrape, bind. rewrite Hg.
    apply run_days_fetches_all. exact Hd.
Qed.

Lemma get_existing_dates_fallback_witness :
  (store Fixtures.s_init = None \/
   exists f, store Fixtures.s_init = Some f /\ read_csv_dates f = None) /\
  get_existing_dates Fixtures.s_init = ([], Fixtures.s_init) /\
  (forall reader, (forall f, store Fixtures.s_init = Some f -> reader f = None) ->
                  get_existing_dates_with reader Fixtures.s_init = ([], Fixtures.s_init)) /\
  (forall d, In d (range_days Fixtures.jan5 Fixtures.jan5) ->
     In (EvGet (scoreboard_url d))
        (events (snd (run_auto_scrape Fixtures.net_two_scores Fixtures.no_jitter false
                                      Fixtures.jan5 Fixtures.jan5 Fixtures.s_init)))).
Proof.
  split; [left; reflexivity|].
  apply (get_existing_dates_fallback Fixtures.net_two_scores Fixtures.no_jitter false
           Fixtures.jan5 Fixtures.jan5 Fixtures.s_init).
  left. reflexivity.
Defined.


(** C8: with the server answering every request the same way in both runs,
    a second run of [run_auto_scrape] over the same range, started from the
    output file left by the first run, leaves the output file unchanged,
    provided the output file was absent or began with the CSV header when
    the first run started. Jitter draws and the log lock may differ between
    the runs, and the rest of the state (ledger, events, counters) is
    arbitrary. *)
Theorem rerun_appends_nothing srv rnd1 rnd2 lk1 lk2 start_date end_date s0 s1 :
  header_ok (store s0) ->
  store s1 = store (snd (run_auto_scrape (fun _ => srv) rnd1 lk1 start_date end_date s0)) ->
  store (snd (run_auto_scrape (fun _ => srv) rnd2 lk2 start_date end_date s1)) = store s1.
Proof.
  intros Hok Hs1.
  set (R := fun d => fst (scrape_day (fun _ => srv) rnd1 lk1 d s0)).
  set (days := range_days start_date end_date).
  rewrite (run_auto_scrape_store srv rnd2 lk2 start_date end_date s1 s0).
  rewrite (run_auto_scrape_store srv rnd1 lk1 start_date end_date s0 s0) in Hs1.
  fold R days in Hs1.
  assert (HR : forall d, Forall (fun r => r_date r = date_str d) (R d))
    by (intros d; apply scrape_day_dates).
  destruct (fold_store_first_run R (dates_of (store s0)) days HR (store s0) Hok)
    as (_ & Hincl & Hnew).
  rewrite <- Hs1 in Hincl, Hnew.
  apply fold_store_no_rows.
  intros d Hd Hm.
  assert (Hsame : fst (scrape_day (fun _ => srv) rnd2 lk2 d s0) = R d)
    by (apply (scrape_day_same srv rnd2 rnd1 lk2 lk1 d)).
  rewrite Hsame.
  destruct (R d) as [|r rs] eqn:ERd; [reflexivity|]. exfalso.
  assert (Hin : In (date_str d) (dates_of (store s1))).
  { destruct (mem_str (date_str d) (dates_of (store s0))) eqn:E0.
    - apply Hincl. apply mem_str_iff. exact E0.
    - apply Hnew; [exact Hd | exact E0 | rewrite ERd; discriminate]. }
  apply mem_str_iff in Hin. congruence.
Qed.

Lemma rerun_appends_nothing_witness :
  header_ok (store Fixtures.s_init) /\
  let s1 := snd (run_auto_scrape (fun _ => Fixtures.net_one_game 0%nat) Fixtures.no_jitter false
                                 Fixtures.jan5 Fixtures.jan5 Fixtures.s_init) in
  store s1 = Some [CsvHeader; CsvRow Fixtures.duke_unc] /\
  store (snd (run_auto_scrape (fun _ => Fixtures.net_one_game 0%nat) Fixtures.no_jitter true
                              Fixtures.jan5 Fixtures.jan5 s1)) = store s1.
Proof.
  split; [left; reflexivity|]. cbv zeta. split; [vm_compute; reflexivity|].
  apply (rerun_appends_nothing (Fixtures.net_one_game 0%nat) Fixtures.no_jitter Fixtures.no_jitter
           false true Fixtures.jan5 Fixtures.jan5 Fixtures.s_init).
  - left. reflexivity.
  - reflexivity.
Defined.

(** C8 fails when the output file exists but is empty (0 bytes) at the
    start of the first run: [read_csv] raises on it, the first run appends
    the game without a header line (the file exists), and the second run
    reads no date column from that headerless file and appends the same
    game again. *)
Lemma rerun_appends_nothing_counterexample :
  let s1 := snd (run_auto_scrape Fixtures.net_one_game Fixtures.no_jitter false
                                 Fixtures.jan5 Fixtures.jan5 Fixtures.s_empty_file) in
  let s2 := snd (run_auto_scrape Fixtures.net_one_game Fixtures.no_jitter false
                                 Fixtures.jan5 Fixtures.jan5 s1) in
  store s1 = Some [CsvRow Fixtures.duke_unc] /\
  store s2 = Some [CsvRow Fixtures.duke_unc; CsvRow Fixtures.duke_unc].
Proof. vm_compute. split; reflexivity. Qed.

(** C3: the orchestrator does not retry a day. For a day not yet in the
    output file, [run_days] runs [scrape_day] once and then the 60-90 s
    pause, nothing more; when that one extraction yields no record,
    nothing is appended to the output file and the only ledger line the day
    can get is ["<date>: 0 games scraped"]. *)
Theorem empty_day_not_retried net rnd lk existing d s :
  mem_str (date_str d) existing = false ->
  fst (scrape_day net rnd lk d s) = [] ->
  snd (run_days net rnd lk existing [d] s) =
    snd (sleep_uniform rnd 60 90 (snd (scrape_day net rnd lk d s))) /\
  store (snd (run_days net rnd lk existing [d] s)) = store s /\
  (ledger (snd (run_days net rnd lk existing [d] s)) = ledger s \/
   ledger (snd (run_days net rnd lk existing [d] s)) = ledger s ++ [zero_line d]).
Proof.
  intros Hm Hnil.
  assert (Hrun : snd (run_days net rnd lk existing [d] s) =
                 snd (sleep_uniform rnd 60 90 (snd (scrape_day net rnd lk d s)))).
  { simpl run_days. rewrite Hm. unfold bind at 1 2.
    destruct (scrape_day net rnd lk d s) as [df t] eqn:E. simpl in Hnil. subst df.
    reflexivity. }
  rewrite Hrun. split; [reflexivity|]. split.
  - rewrite sleep_uniform_store. apply (scrape_day_store net rnd lk d s).
  - apply scrape_day_empty_ledger. exact Hnil.
Qed.

Lemma empty_day_not_retried_witness :
  mem_str (date_str Fixtures.jan5) [] = false /\
  fst (scrape_day Fixtures.net_retry Fixtures.no_jitter false Fixtures.jan5 Fixtures.s_init) = [] /\
  snd (run_days Fixtures.net_retry Fixtures.no_jitter false [] [Fixtures.jan5] Fixtures.s_init) =
    snd (sleep_uniform Fixtures.no_jitter 60 90
           (snd (scrape_day Fixtures.net_retry Fixtures.no_jitter false Fixtures.jan5 Fixtures.s_init))) /\
  store (snd (run_days Fixtures.net_retry Fixtures.no_jitter false [] [Fixtures.jan5] Fixtures.s_init))
    = store Fixtures.s_init /\
  (ledger (snd (run_days Fixtures.net_retry Fixtures.no_jitter false [] [Fixtures.jan5] Fixtures.s_init))
     = ledger Fixtures.s_init \/
   ledger (snd (run_days Fixtures.net_retry Fixtures.no_jitter false [] [Fixtures.jan5] Fixtures.s_init))
     = ledger Fixtures.s_init ++ [zero_line Fixtures.jan5]).
Proof.
  split; [reflexivity|]. split; [vm_compute; reflexivity|].
  apply (empty_day_not_retried Fixtures.net_retry Fixtures.no_jitter false [] Fixtures.jan5
           Fixtures.s_init).
  - reflexivity.
  - vm_compute. reflexivity.
Defined.

(** C3 fails on a day whose first scoreboard fetch has no boxes yet while
    a second fetch and extraction would give one game: the run requests
    the scoreboard once, logs ["2010-01-05: 0 games scraped"] and appends
    nothing. *)
Lemma empty_day_not_retried_counterexample :
  let s1 := snd (run_auto_scrape Fixtures.net_retry Fixtures.no_jitter false
                                 Fixtures.jan5 Fixtures.jan5 Fixtures.s_init) in
  requested (events s1) = [scoreboard_url Fixtures.jan5] /\
  ledger s1 = [zero_line Fixtures.jan5] /\
  store s1 = None /\
  fst (scrape_day Fixtures.net_retry Fixtures.no_jitter false Fixtures.jan5
         (snd (scrape_day Fixtures.net_retry Fixtures.no_jitter false Fixtures.jan5
                 Fixtures.s_init))) = [Fixtures.duke_unc].
Proof. vm_compute. repeat split; reflexivity. Qed.


(** C1 (failing input): on a 2002 scoreboard, [scrape_day] keeps a men's
    summary block whose only boxscore link is dated the day before, and
    stamps it with the requested date; [parse_day] drops the same block,
    and keeps it once its link carries the requested date. *)
Lemma scrape_day_summary_date_unguarded :
  contains ("/cbb/boxscores/" ^^ date_str Fixtures.nov22_2002) Fixtures.echoed_link = false /\
  sum_links Fixtures.echoed_summary = [Fixtures.echoed_link] /\
  fst (scrape_day Fixtures.net_echo Fixtures.no_jitter false Fixtures.nov22_2002 Fixtures.s_init)
    = [mk_row "2002-11-22" "UNC" "Duke" 65 70 false] /\
  Rebuild.parse_day [Fixtures.summary_gbox Fixtures.echoed_link] Fixtures.nov22_2002 = [] /\
  Rebuild.parse_day [Fixtures.summary_gbox "/cbb/boxscores/2002-11-22-19-duke.html"]
                    Fixtures.nov22_2002
    = [Rebuild.mkRRow "11/22/2002" "UNC" "Duke" 65 70 135 (-5) 0].
Proof. vm_compute. repeat split; reflexivity. Qed.


(** C6 (failing input): for 2010-07-01, in an off-season month, the run
    requests the scoreboard, skips only the game link, and logs
    ["2010-07-01: 0 games scraped"]; [rebuild_scores_25yrs.py] would not
    visit the day at all. *)
Lemma offseason_day_fetched_and_logged :
  existsb (Z.eqb (month Fixtures.jul1)) OFFSEASON_MONTHS = true /\
  Rebuild.is_in_season Fixtures.jul1 = false /\
  let s1 := snd (run_auto_scrape Fixtures.net_july Fixtures.no_jitter false
                                 Fixtures.jul1 Fixtures.jul1 Fixtures.s_init) in
  requested (events s1) = [scoreboard_url Fixtures.jul1] /\
  ledger s1 = ["2010-07-01: 0 games scraped" ^^ nl] /\
  store s1 = None.
Proof. vm_compute. repeat split; reflexivity. Qed.


(** C7: when the scoreboard request of a day fails for good, [scrape_day]
    returns no rows and writes no ledger line for the day. *)
Theorem failed_fetch_not_logged net rnd lk d s :
  fst (safe_get net rnd (scoreboard_url d) 4 (8 # 1) s) = None ->
  fst (scrape_day net rnd lk d s) = [] /\
  ledger (snd (scrape_day net rnd lk d s)) = ledger s.
Proof.
  intros Hnone.
  pose proof (safe_get_loop_ledger net rnd (scoreboard_url d) (8 # 1) 0 4 s) as H1.
  unfold safe_get in Hnone. unfold scrape_day, safe_get, bind. cbv zeta.
  destruct (safe_get_loop net rnd (scoreboard_url d) (8 # 1) 0 4 s) as [r t] eqn:E1.
  simpl in Hnone. subst r. unfold same_ledger in H1. simpl in H1.
  split; [reflexivity | exact H1].
Qed.

Lemma failed_fetch_not_logged_witness :
  fst (safe_get Fixtures.net_404_then_game Fixtures.no_jitter (scoreboard_url Fixtures.jan5)
                4 (8 # 1) Fixtures.s_init) = None /\
  fst (scrape_day Fixtures.net_404_then_game Fixtures.no_jitter false Fixtures.jan5
                  Fixtures.s_init) = [] /\
  ledger (snd (scrape_day Fixtures.net_404_then_game Fixtures.no_jitter false Fixtures.jan5
                          Fixtures.s_init)) = ledger Fixtures.s_init.
Proof.
  split; [vm_compute; reflexivity|].
  apply (failed_fetch_not_logged Fixtures.net_404_then_game Fixtures.no_jitter false
           Fixtures.jan5 Fixtures.s_init).
  vm_compute. reflexivity.
Defined.

(** C7 (failing input): a two-day run whose first scoreboard answers 404
    goes on to the second day, but the ledger only records the second day,
    so [find_failed_days] does not report the failed one. *)
Lemma failed_day_missing_from_ledger :
  let s1 := snd (run_auto_scrape Fixtures.net_404_then_game Fixtures.no_jitter false
                                 Fixtures.jan5 Fixtures.jan6 Fixtures.s_init) in
  requested (events s1) = [scoreboard_url Fixtures.jan5; scoreboard_url Fixtures.jan6;
                           BASE_URL ^^ Fixtures.game_href Fixtures.jan6 "a"] /\
  ledger s1 = ["2010-01-06: 1 games scraped" ^^ nl] /\
  Rescrape.find_failed_days (Some (String.concat "" (ledger s1))) = [].
Proof. vm_compute. repeat split; reflexivity. Qed.

(** C9 (failing input): a ledger whose only line records ten games for
    2010-01-05 makes [find_failed_days] return that date, because
    ["0 games scraped"] is a substring of ["10 games scraped"]. *)
Lemma find_failed_days_ten_games :
  Rescrape.find_failed_days (Some ("2010-01-05: 10 games scraped" ^^ nl)) = ["2010-01-05"] /\
  Rescrape.find_failed_days
    (Some ("2010-01-05: 10 games scraped" ^^ nl ^^ "2010-01-06: 3 games scraped" ^^ nl))
    = ["2010-01-05"].
Proof. vm_compute. split; reflexivity. Qed.

(* ------------------------------------------------------------------ *)
(** ** Further properties of the code *)

(** *** Requests of one day *)

Lemma sleep_uniform_reqs rnd a b s : reqs (snd (sleep_uniform rnd a b s)) = reqs s.
Proof. reflexivity. Qed.

Lemma safe_get_reqs net rnd url n base s :
  (reqs (snd (safe_get net rnd url n base s)) <= reqs s + n)%nat.
Proof.
  destruct (safe_get_loop_contract net rnd url base n O s)
    as (A & jit & HA & _ & _ & _ & Hr & _).
  unfold safe_get. rewrite Hr. lia.
Qed.

Lemma process_box_reqs net rnd d ds box s :
  (reqs (snd (process_box net rnd d ds box s)) <= reqs s + 3)%nat.
Proof.
  unfold process_box. destruct (box_href box) as [href|]; [|simpl; lia].
  destruct (negb _); [simpl; lia|]. destruct (_ || _); [simpl; lia|].
  destruct (existsb _ _); [simpl; lia|].
  pose proof (safe_get_reqs net rnd (BASE_URL ^^ href) 3 (3 # 1) s) as H.
  unfold bind at 1. destruct (safe_get net rnd (BASE_URL ^^ href) 3 (3 # 1) s) as [gp t].
  simpl in H. destruct gp as [g|]; [|simpl; lia].
  destruct (game_row ds g); [|simpl; lia].
  unfold bind. rewrite <- sleep_uniform_reqs with (rnd := rnd) (a := 32 # 10) (b := 4 # 1) in H.
  destruct (sleep_uniform rnd (32 # 10) (4 # 1) t). simpl in *. lia.
Qed.

Lemma mapM_process_box_reqs net rnd d ds boxes : forall s,
  (reqs (snd (mapM (process_box net rnd d ds) boxes s)) <= reqs s + 3 * length boxes)%nat.
Proof.
  induction boxes as [|b bs IH]; intros s; simpl; [lia|].
  unfold bind. pose proof (process_box_reqs net rnd d ds b s) as H1.
  destruct (process_box net rnd d ds b s) as [o t]. simpl in H1.
  pose proof (IH t) as H2. destruct (mapM (process_box net rnd d ds) bs t) as [os t2].
  simpl in *. lia.
Qed.

(** [scrape_day] issues at most 4 requests for the scoreboard (the retry
    budget of [safe_get]) and at most 3 per [td.gamelink] box of the
    scoreboard page it obtained; with no scoreboard, at most the 4. *)
Theorem scrape_day_request_bound net rnd lk d s :
  (reqs (snd (scrape_day net rnd lk d s)) <=
   reqs s + 4 + 3 * match fst (safe_get net rnd (scoreboard_url d) 4 (8 # 1) s) with
                    | Some soup => length (gamelinks soup)
                    | None => 0
                    end)%nat.
Proof.
  pose proof (safe_get_reqs net rnd (scoreboard_url d) 4 (8 # 1) s) as H1.
  unfold scrape_day, bind. cbv zeta.
  destruct (safe_get net rnd (scoreboard_url d) 4 (8 # 1) s) as [[soup|] t]; simpl in *; [|lia].
  pose proof (mapM_process_box_reqs net rnd d (date_str d) (gamelinks soup) t) as H2.
  destruct (mapM (process_box net rnd d (date_str d)) (gamelinks soup) t) as [brs t2].
  simpl in H2. destruct (_ ++ somes brs); simpl; lia.
Qed.

(** [process_box] drops a box without any request, sleep or other effect
    when it has no link, when the link lacks [/cbb/boxscores/<date>], when
    the link or a class of the cell mentions "women" (in any case), or when
    the day is in an off-season month. *)
Theorem process_box_skips net rnd d ds box s :
  (box_href box = None \/
   exists href, box_href box = Some href /\
     (contains ("/cbb/boxscores/" ^^ ds) href = false \/
      contains "women" (lower href) = true \/
      (exists c, In c (box_classes box) /\ contains "women" (lower c) = true) \/
      In (month d) OFFSEASON_MONTHS)) ->
  process_box net rnd d ds box s = (None, s).
Proof.
  intros H. unfold process_box.
  destruct H as [-> | (href & -> & H)]; [reflexivity|].
  destruct (contains ("/cbb/boxscores/" ^^ ds) href) eqn:Ed; [|reflexivity]. simpl negb. cbv iota.
  destruct H as [H | [H | [(c & Hc & Hw) | H]]]; [congruence | rewrite H; reflexivity | |].
  - replace (existsb (fun c => contains "women" (lower c)) (box_classes box)) with true
      by (symmetry; apply existsb_exists; exists c; auto).
    rewrite orb_true_r. reflexivity.
  - destruct (_ || _); [reflexivity|].
    replace (existsb (Z.eqb (month d)) OFFSEASON_MONTHS) with true
      by (symmetry; apply existsb_exists; exists (month d); split; [exact H | apply Z.eqb_refl]).
    reflexivity.
Qed.

Lemma process_box_skips_witness :
  (box_href (mkBox (Some (Fixtures.game_href Fixtures.jul1 "a")) ["gamelink"]) = None \/
   exists href, box_href (mkBox (Some (Fixtures.game_href Fixtures.jul1 "a")) ["gamelink"]) = Some href /\
     (contains ("/cbb/boxscores/" ^^ date_str Fixtures.jul1) href = false \/
      contains "women" (lower href) = true \/
      (exists c, In c (box_classes (mkBox (Some (Fixtures.game_href Fixtures.jul1 "a")) ["gamelink"]))
                 /\ contains "women" (lower c) = true) \/
      In (month Fixtures.jul1) OFFSEASON_MONTHS)) /\
  process_box Fixtures.net_july Fixtures.no_jitter Fixtures.jul1 (date_str Fixtures.jul1)
    (mkBox (Some (Fixtures.game_href Fixtures.jul1 "a")) ["gamelink"]) Fixtures.s_init
  = (None, Fixtures.s_init).
Proof.
  assert (H : box_href (mkBox (Some (Fixtures.game_href Fixtures.jul1 "a")) ["gamelink"]) = None \/
   exists href, box_href (mkBox (Some (Fixtures.game_href Fixtures.jul1 "a")) ["gamelink"]) = Some href /\
     (contains ("/cbb/boxscores/" ^^ date_str Fixtures.jul1) href = false \/
      contains "women" (lower href) = true \/
      (exists c, In c (box_classes (mkBox (Some (Fixtures.game_href Fixtures.jul1 "a")) ["gamelink"]))
                 /\ contains "women" (lower c) = true) \/
      In (month Fixtures.jul1) OFFSEASON_MONTHS)).
  { right. exists (Fixtures.game_href Fixtures.jul1 "a"). split; [reflexivity|].
    right. right. right. simpl. tauto. }
  split; [exact H|].
  exact (process_box_skips Fixtures.net_july Fixtures.no_jitter Fixtures.jul1
           (date_str Fixtures.jul1) _ Fixtures.s_init H).
Defined.

(** *** The ledger line and the rows of one day *)

Lemma scrape_day_ledger_eq net rnd lk d s :
  ledger (snd (scrape_day net rnd lk d s)) =
  ledger s ++ match fst (safe_get net rnd (scoreboard_url d) 4 (8 # 1) s) with
              | Some _ =>
                  if lk then []
                  else [date_str d ^^ ": " ^^ show_Z (Z.of_nat (length (fst (scrape_day net rnd lk d s))))
                         ^^ " games scraped" ^^ nl]
              | None => []
              end.
Proof.
  pose proof (safe_get_loop_ledger net rnd (scoreboard_url d) (8 # 1) 0 4 s) as H1.
  unfold scrape_day, safe_get, bind. cbv zeta. unfold safe_get in H1.
  destruct (safe_get_loop net rnd (scoreboard_url d) (8 # 1) 0 4 s) as [[soup|] t];
    unfold same_ledger in H1; simpl in H1 |- *; [|rewrite app_nil_r; exact H1].
  pose proof (preserves_mapM same_ledger same_ledger_refl same_ledger_trans
                (process_box net rnd d (date_str d)) (gamelinks soup)
                (process_box_ledger net rnd d (date_str d)) t) as H2.
  destruct (mapM (process_box net rnd d (date_str d)) (gamelinks soup) t) as [brs t2].
  unfold same_ledger in H2. simpl in H2 |- *.
  destruct (_ ++ somes brs) as [|r rs]; unfold log_write, ret; simpl;
    rewrite H2, H1; destruct lk; try rewrite app_nil_r; reflexivity.
Qed.

(** The ledger effect of [scrape_day]: when the scoreboard loaded and the
    log is writable, exactly one line ["<date>: <n> games scraped"] whose
    count [n] is the number of rows returned (0 included); otherwise no
    line at all. *)
Theorem scrape_day_log_line net rnd lk d s :
  ledger (snd (scrape_day net rnd lk d s)) =
  ledger s ++ match fst (safe_get net rnd (scoreboard_url d) 4 (8 # 1) s) with
              | Some _ =>
                  if lk then []
                  else [date_str d ^^ ": " ^^ show_Z (Z.of_nat (length (fst (scrape_day net rnd lk d s))))
                         ^^ " games scraped" ^^ nl]
              | None => []
              end.
Proof. apply scrape_day_ledger_eq. Qed.

Section DedupUnique.

Context {A K : Type} (eqK : K -> K -> bool) (key : A -> K).
Hypothesis eqK_iff : forall a b, eqK a b = true <-> a = b.

Lemma drop_duplicates_last_NoDup l : NoDup (map key (drop_duplicates_last eqK key l)).
Proof.
  induction l as [|x r IH]; simpl; [constructor|].
  destruct (existsb (fun y => eqK (key x) (key y)) r) eqn:E; [exact IH|].
  simpl. constructor; [|exact IH].
  intros Hin. apply in_map_iff in Hin as (y & Hy & Hyin).
  apply existsb_last_kept in Hyin.
  assert (Ht : existsb (fun y => eqK (key x) (key y)) r = true)
    by (apply existsb_exists; exists y; split; [exact Hyin | apply eqK_iff; congruence]).
  congruence.
Qed.

Lemma drop_duplicates_last_covers l x :
  In x l -> exists y, In y (drop_duplicates_last eqK key l) /\ key y = key x.
Proof.
  revert x. induction l as [|h r IH]; intros x; simpl; [tauto|]. intros Hx.
  destruct (existsb (fun y => eqK (key h) (key y)) r) eqn:E.
  - destruct Hx as [<-|Hx]; [|apply IH, Hx].
    apply existsb_exists in E as (y & Hy & Hk). apply eqK_iff in Hk.
    destruct (IH y Hy) as (z & Hz & Hzk). exists z. split; [exact Hz | congruence].
  - destruct Hx as [<-|Hx].
    + exists h. split; [left; reflexivity | reflexivity].
    + destruct (IH x Hx) as (z & Hz & Hzk). exists z. split; [right; exact Hz | exact Hzk].
Qed.

Lemma drop_duplicates_first_NoDup l : forall seen,
  NoDup (map key (Rebuild.drop_duplicates_first eqK key seen l)) /\
  (forall y, In y (Rebuild.drop_duplicates_first eqK key seen l) -> ~ In (key y) seen).
Proof.
  induction l as [|x r IH]; intros seen; simpl.
  - split; [constructor | tauto].
  - destruct (existsb (eqK (key x)) seen) eqn:E.
    + exact (IH seen).
    + destruct (IH (key x :: seen)) as [Hnd Hfresh]. split.
      * simpl. constructor; [|exact Hnd].
        intros Hin. apply in_map_iff in Hin as (y & Hy & Hyin).
        apply (Hfresh y Hyin). left. symmetry. exact Hy.
      * intros y [<-|Hy].
        -- intros Hin. assert (Ht : existsb (eqK (key x)) seen = true)
             by (apply existsb_exists; exists (key x); split; [exact Hin | apply eqK_iff; reflexivity]).
           congruence.
        -- intros Hin. apply (Hfresh y Hy). right. exact Hin.
Qed.

Lemma drop_duplicates_first_covers l : forall seen x,
  In x l -> ~ In (key x) seen ->
  exists y, In y (Rebuild.drop_duplicates_first eqK key seen l) /\ key y = key x.
Proof.
  induction l as [|h r IH]; intros seen x; simpl; [tauto|]. intros Hx Hnew.
  destruct (existsb (eqK (key h)) seen) eqn:E.
  - destruct Hx as [<-|Hx].
    + exfalso. apply existsb_exists in E as (k & Hk & He). apply eqK_iff in He. subst. contradiction.
    + apply IH; assumption.
  - destruct Hx as [<-|Hx].
    + exists h. split; [left; reflexivity | reflexivity].
    + destruct (eqK (key h) (key x)) eqn:Ehx.
      * apply eqK_iff in Ehx. exists h. split; [left; reflexivity | exact Ehx].
      * assert (Hnew' : ~ In (key x) (key h :: seen)).
        { intros [Hk|Hk]; [|contradiction].
          rewrite Hk in Ehx. rewrite (proj2 (eqK_iff (key x) (key x)) eq_refl) in Ehx. discriminate. }
        destruct (IH (key h :: seen) x Hx Hnew') as (z & Hz & Hzk).
        exists z. split; [right; exact Hz | exact Hzk].
Qed.

End DedupUnique.

(** The rows [scrape_day] returns all carry the requested date and no two
    share the key (date, home team, away team). *)
Theorem scrape_day_rows_unique net rnd lk d s :
  Forall (fun r => r_date r = date_str d) (fst (scrape_day net rnd lk d s)) /\
  NoDup (map key3 (fst (scrape_day net rnd lk d s))).
Proof.
  split; [apply scrape_day_dates|].
  destruct (scrape_day_dedup net rnd lk d s) as [rows ->].
  apply drop_duplicates_last_NoDup, eq_key3_iff.
Qed.

(** Every row of [parse_day] comes from a men's block (class [gender-m] or
    a "Men's" text) whose boxscore link holds the requested date as
    [YYYY-MM-DD]; it is dated [M/D/YYYY] of that day, and [ot] is 0 or 1. *)
Theorem parse_day_rows boxes d r :
  In r (Rebuild.parse_day boxes d) ->
  Rebuild.q_date r = Rebuild.us_date d /\
  (Rebuild.q_ot r = 0 \/ Rebuild.q_ot r = 1) /\
  exists box href,
    In box boxes /\
    (In "gender-m" (Rebuild.g_classes box) \/ contains "Men's" (Rebuild.g_text box) = true) /\
    Rebuild.g_link box = Some href /\ contains (Rebuild.ymd d) href = true.
Proof.
  intros H. destruct (parse_day_from_boxes _ _ _ H) as (box & Hin & Hp).
  unfold Rebuild.parse_box in Hp.
  destruct (existsb (String.eqb "gender-m") (Rebuild.g_classes box)
            || contains "Men's" (Rebuild.g_text box)) eqn:Emen; [|discriminate].
  simpl negb in Hp. cbv iota in Hp.
  destruct (Rebuild.g_link box) as [href|] eqn:El; [|discriminate].
  destruct (contains (Rebuild.ymd d) href) eqn:Ew; [|discriminate].
  simpl negb in Hp. cbv iota in Hp.
  destruct (Rebuild.g_rows box) as [|tr1 [|tr2 rest]]; try discriminate.
  destruct (Rebuild.row_to_team_score tr1) as [t1 s1].
  destruct (Rebuild.row_to_team_score tr2) as [t2 s2].
  destruct (Rebuild.falsy_str t1 || Rebuild.falsy_str t2); [discriminate|].
  destruct t1, t2, s1, s2; try discriminate.
  injection Hp as <-. simpl. split; [reflexivity|]. split.
  - destruct (contains "OT" (Rebuild.g_text box)); auto.
  - exists box, href. split; [exact Hin|]. split; [|auto].
    apply orb_true_iff in Emen as [Hg|Hm]; [left|right; exact Hm].
    apply existsb_exists in Hg as (c & Hc & Hce). apply String.eqb_eq in Hce. subst. exact Hc.
Qed.

Lemma parse_day_rows_witness :
  In (Rebuild.mkRRow "11/22/2002" "UNC" "Duke" 65 70 135 (-5) 0)
     (Rebuild.parse_day [Fixtures.summary_gbox "/cbb/boxscores/2002-11-22-19-duke.html"]
                        Fixtures.nov22_2002) /\
  Rebuild.q_date (Rebuild.mkRRow "11/22/2002" "UNC" "Duke" 65 70 135 (-5) 0)
    = Rebuild.us_date Fixtures.nov22_2002 /\
  (Rebuild.q_ot (Rebuild.mkRRow "11/22/2002" "UNC" "Duke" 65 70 135 (-5) 0) = 0 \/
   Rebuild.q_ot (Rebuild.mkRRow "11/22/2002" "UNC" "Duke" 65 70 135 (-5) 0) = 1) /\
  exists box href,
    In box [Fixtures.summary_gbox "/cbb/boxscores/2002-11-22-19-duke.html"] /\
    (In "gender-m" (Rebuild.g_classes box) \/ contains "Men's" (Rebuild.g_text box) = true) /\
    Rebuild.g_link box = Some href /\ contains (Rebuild.ymd Fixtures.nov22_2002) href = true.
Proof.
  assert (H : In (Rebuild.mkRRow "11/22/2002" "UNC" "Duke" 65 70 135 (-5) 0)
     (Rebuild.parse_day [Fixtures.summary_gbox "/cbb/boxscores/2002-11-22-19-duke.html"]
                        Fixtures.nov22_2002)) by (vm_compute; left; reflexivity).
  split; [exact H|].
  exact (parse_day_rows _ _ _ H).
Defined.

(** [parse_day] never returns two rows with the same (home team, away
    team, home score, away score), and drops no game: every row a kept
    block yields has a row with its key in the result. *)
Theorem parse_day_unique_complete boxes d :
  NoDup (map Rebuild.key4 (Rebuild.parse_day boxes d)) /\
  (forall box r, In box boxes -> Rebuild.parse_box (Rebuild.ymd d) d box = Some r ->
     exists r', In r' (Rebuild.parse_day boxes d) /\ Rebuild.key4 r' = Rebuild.key4 r).
Proof.
  assert (Hpd : Rebuild.parse_day boxes d =
                Rebuild.drop_duplicates_first Rebuild.eq_key4 Rebuild.key4 []
                  (somes (map (Rebuild.parse_box (Rebuild.ymd d) d) boxes)))
    by (unfold Rebuild.parse_day; destruct (somes _); reflexivity).
  rewrite Hpd. split.
  - apply (drop_duplicates_first_NoDup Rebuild.eq_key4 Rebuild.key4 eq_key4_iff).
  - intros box r Hb Hr. apply (drop_duplicates_first_covers _ _ eq_key4_iff); [|simpl; tauto].
    clear Hpd. induction boxes as [|b bs IH]; [destruct Hb|].
    simpl. destruct Hb as [<-|Hb].
    + rewrite Hr. left. reflexivity.
    + destruct (Rebuild.parse_box _ d b); [right|]; apply IH, Hb.
Qed.

(** *** The output file across a run *)

(** On an output file that is absent or starts with the header,
    [append_to_master] keeps it so, and [get_existing_dates] afterwards
    reads the dates read before followed by the dates of the appended rows. *)
Theorem append_to_master_read_back df s :
  header_ok (store s) ->
  header_ok (store (snd (append_to_master df s))) /\
  fst (get_existing_dates (snd (append_to_master df s))) =
    fst (get_existing_dates s) ++ map r_date df.
Proof.
  intros Hok. rewrite !get_existing_dates_dates, append_to_master_store. simpl.
  exact (app_store_dates (store s) df Hok).
Qed.

Lemma append_to_master_read_back_witness :
  header_ok (store Fixtures.s_init) /\
  header_ok (store (snd (append_to_master [Fixtures.duke_unc] Fixtures.s_init))) /\
  fst (get_existing_dates (snd (append_to_master [Fixtures.duke_unc] Fixtures.s_init))) =
    fst (get_existing_dates Fixtures.s_init) ++ map r_date [Fixtures.duke_unc].
Proof.
  split; [left; reflexivity|].
  apply (append_to_master_read_back [Fixtures.duke_unc] Fixtures.s_init). left. reflexivity.
Defined.

Lemma appends_rows_refl s : appends_rows s s.
Proof.
  unfold appends_rows. destruct (store s) as [l|] eqn:E.
  - exists []. rewrite app_nil_r. reflexivity.
  - left. reflexivity.
Qed.

Lemma appends_rows_trans s1 s2 s3 :
  appends_rows s1 s2 -> appends_rows s2 s3 -> appends_rows s1 s3.
Proof.
  unfold appends_rows. destruct (store s1) as [l|].
  - intros (r1 & E2) H3. rewrite E2 in H3. destruct H3 as (r2 & E3).
    exists (r1 ++ r2). rewrite E3, map_app, app_assoc. reflexivity.
  - intros [E2|(r1 & E2)] H3; rewrite E2 in H3; [exact H3|].
    right. destruct H3 as (r2 & E3). exists (r1 ++ r2). rewrite E3, map_app. reflexivity.
Qed.

Lemma same_store_appends {A} (m : M A) :
  preserves same_store m -> preserves appends_rows m.
Proof.
  intros H s. pose proof (H s) as Hs. unfold same_store in Hs.
  unfold appends_rows. rewrite Hs. apply appends_rows_refl.
Qed.

Lemma append_to_master_appends df : preserves appends_rows (append_to_master df).
Proof.
  intros s. unfold appends_rows. rewrite append_to_master_store.
  destruct df as [|r rs]; simpl.
  - apply appends_rows_refl.
  - destruct (store s); [exists (r :: rs) | right; exists (r :: rs)]; reflexivity.
Qed.

Lemma run_days_appends net rnd lk E days : preserves appends_rows (run_days net rnd lk E days).
Proof.
  induction days as [|d days IH]; simpl.
  - apply preserves_ret, appends_rows_refl.
  - apply (preserves_bind _ appends_rows_trans).
    + destruct (mem_str _ _).
      * apply preserves_ret, appends_rows_refl.
      * apply (preserves_bind _ appends_rows_trans);
          [apply same_store_appends, scrape_day_store | apply append_to_master_appends].
    + intros _. apply (preserves_bind _ appends_rows_trans); [|intros _; exact IH].
      apply same_store_appends. intros s. apply sleep_uniform_store.
Qed.

(** [run_auto_scrape] only appends to the output file: an existing file
    keeps its content as a prefix and only gets data rows (never a second
    header); an absent file stays absent or is created with the header
    followed by data rows. This holds for any server, jitter and log lock. *)
Theorem run_auto_scrape_appends_only net rnd lk start_date end_date s :
  (forall l, store s = Some l -> exists rows,
     store (snd (run_auto_scrape net rnd lk start_date end_date s)) = Some (l ++ map CsvRow rows)) /\
  (store s = None ->
     store (snd (run_auto_scrape net rnd lk start_date end_date s)) = None \/
     exists rows, store (snd (run_auto_scrape net rnd lk start_date end_date s)) =
                  Some (CsvHeader :: map CsvRow rows)).
Proof.
  pose proof (run_days_appends net rnd lk (fst (get_existing_dates s))
                (range_days start_date end_date) s) as H.
  assert (Hr : run_auto_scrape net rnd lk start_date end_date s =
               run_days net rnd lk (fst (get_existing_dates s)) (range_days start_date end_date) s)
    by reflexivity.
  rewrite Hr. unfold appends_rows in H. split.
  - intros l Hl. rewrite Hl in H. exact H.
  - intros Hn. rewrite Hn in H. exact H.
Qed.

Lemma run_days_all_present net rnd lk E days : forall s,
  (forall d, In d days -> mem_str (date_str d) E = true) ->
  let s' := snd (run_days net rnd lk E days s) in
  reqs s' = reqs s /\ requested (events s') = requested (events s) /\
  store s' = store s /\ ledger s' = ledger s.
Proof.
  induction days as [|d days IH]; intros s Hall; [repeat split|].
  cbv zeta.
  assert (Hstep : run_days net rnd lk E (d :: days) s =
                  run_days net rnd lk E days (snd (sleep_uniform rnd 60 90 s))).
  { simpl run_days. rewrite (Hall d (or_introl eq_refl)). reflexivity. }
  rewrite Hstep.
  destruct (IH (snd (sleep_uniform rnd 60 90 s))) as (H1 & H2 & H3 & H4);
    [intros d' Hd'; apply Hall; right; exact Hd'|].
  cbv zeta in H1, H2, H3, H4. rewrite H1, H2, H3, H4.
  unfold requested. simpl events. rewrite flat_map_app. simpl. rewrite app_nil_r.
  repeat split.
Qed.

(** When every day of the range is already among the dates of the output
    file, [run_auto_scrape] makes no request and changes neither the
    output file nor the ledger: it only sleeps between days. *)
Theorem run_auto_scrape_all_present net rnd lk start_date end_date s :
  (forall d, In d (range_days start_date end_date) ->
             In (date_str d) (fst (get_existing_dates s))) ->
  let s' := snd (run_auto_scrape net rnd lk start_date end_date s) in
  reqs s' = reqs s /\ requested (events s') = requested (events s) /\
  store s' = store s /\ ledger s' = ledger s.
Proof.
  intros Hall.
  change (run_auto_scrape net rnd lk start_date end_date s)
    with (run_days net rnd lk (fst (get_existing_dates s)) (range_days start_date end_date) s).
  apply run_days_all_present. intros d Hd. apply mem_str_iff, Hall, Hd.
Qed.

Lemma run_auto_scrape_all_present_witness :
  let s0 := mkSt 0 0 [] [] (Some [CsvHeader; CsvRow Fixtures.duke_unc]) in
  (forall d, In d (range_days Fixtures.jan5 Fixtures.jan5) ->
             In (date_str d) (fst (get_existing_dates s0))) /\
  let s' := snd (run_auto_scrape Fixtures.net_one_game Fixtures.no_jitter false
                                 Fixtures.jan5 Fixtures.jan5 s0) in
  reqs s' = reqs s0 /\ requested (events s') = requested (events s0) /\
  store s' = store s0 /\ ledger s' = ledger s0.
Proof.
  cbv zeta.
  assert (H : forall d, In d (range_days Fixtures.jan5 Fixtures.jan5) ->
             In (date_str d) (fst (get_existing_dates
                (mkSt 0 0 [] [] (Some [CsvHeader; CsvRow Fixtures.duke_unc]))))).
  { intros d Hd. vm_compute in Hd. destruct Hd as [<-|[]]. vm_compute. left. reflexivity. }
  split; [exact H|].
  exact (run_auto_scrape_all_present Fixtures.net_one_game Fixtures.no_jitter false
           Fixtures.jan5 Fixtures.jan5 _ H).
Defined.

Lemma log_write_locked line : preserves same_ledger (log_write true line).
Proof. intros s. reflexivity. Qed.

Lemma run_days_locked net rnd E days : preserves same_ledger (run_days net rnd true E days).
Proof.
  induction days as [|d days IH]; simpl.
  - apply preserves_ret, same_ledger_refl.
  - apply (preserves_bind _ same_ledger_trans).
    + destruct (mem_str _ _); [apply preserves_ret, same_ledger_refl|].
      apply (preserves_bind _ same_ledger_trans);
        [|intros df; unfold append_to_master, get_store, set_store;
          walk_preserves same_ledger_refl same_ledger_trans; prim_store].
      unfold scrape_day, safe_get.
      walk_preserves same_ledger_refl same_ledger_trans;
        first [apply safe_get_loop_ledger | apply process_box_ledger | apply log_write_locked | prim_store].
    + intros _. apply (preserves_bind _ same_ledger_trans); [intros s; reflexivity | intros _; exact IH].
Qed.

(** With the log file locked ([PermissionError] on every open), a run
    leaves the ledger exactly as it was. *)
Theorem run_auto_scrape_locked_log net rnd start_date end_date s :
  ledger (snd (run_auto_scrape net rnd true start_date end_date s)) = ledger s.
Proof.
  change (run_auto_scrape net rnd true start_date end_date s)
    with (run_days net rnd true (fst (get_existing_dates s)) (range_days start_date end_date) s).
  apply run_days_locked.
Qed.

(** *** [find_failed_days] *)

Lemma str_ltb_irrefl a : Rescrape.str_ltb a a = false.
Proof.
  induction a as [|c a IH]; simpl; [reflexivity|].
  rewrite Nat.ltb_irrefl, Nat.eqb_refl, IH. reflexivity.
Qed.

Lemma str_ltb_trans a b c :
  Rescrape.str_ltb a b = true -> Rescrape.str_ltb b c = true -> Rescrape.str_ltb a c = true.
Proof.
  revert b c. induction a as [|x a IH]; intros [|y b] [|z c]; simpl; try discriminate; auto.
  rewrite !orb_true_iff, !andb_true_iff, !Nat.ltb_lt, !Nat.eqb_eq.
  intros [H1|[H1 H1']] [H2|[H2 H2']]; try (left; lia).
  right. split; [lia | eapply IH; eassumption].
Qed.

Lemma str_ltb_total a b :
  a <> b -> Rescrape.str_ltb a b = false -> Rescrape.str_ltb b a = true.
Proof.
  revert b. induction a as [|x a IH]; intros [|y b]; simpl; try discriminate; auto.
  - rewrite orb_false_iff, andb_false_iff, Nat.ltb_ge, Nat.eqb_neq.
    rewrite orb_true_iff, andb_true_iff, Nat.ltb_lt, Nat.eqb_eq.
    intros Hne [H1 [H2|H2]]; [left; lia|].
    destruct (Nat.eq_dec (nat_of_ascii x) (nat_of_ascii y)) as [E|E]; [|left; lia].
    right. split; [lia|]. apply IH; [|exact H2].
    intros ->. apply Hne. f_equal. rewrite <- (ascii_nat_embedding x), <- (ascii_nat_embedding y).
    congruence.
Qed.

Lemma insert_uniq_In x l y : In y (Rescrape.insert_uniq x l) <-> y = x \/ In y l.
Proof.
  induction l as [|z r IH]; simpl; [split; intros [H|[]]; left; congruence|].
  destruct (String.eqb x z) eqn:E.
  - apply String.eqb_eq in E. subst. simpl. split; [tauto|].
    intros [H|[H|H]]; [left; symmetry; exact H | left; exact H | right; exact H].
  - destruct (Rescrape.str_ltb x z); simpl; [|rewrite IH];
      split; intros H; repeat destruct H as [H|H]; subst; auto.
Qed.

Lemma sorted_set_In xs y : In y (Rescrape.sorted_set xs) <-> In y xs.
Proof.
  induction xs as [|x r IH]; simpl; [tauto|]. rewrite insert_uniq_In, IH.
  split; intros H; repeat destruct H as [H|H]; subst; auto.
Qed.


Lemma insert_uniq_HdRel y x r :
  HdRel str_lt y r -> str_lt y x -> HdRel str_lt y (Rescrape.insert_uniq x r).
Proof.
  destruct r as [|z r]; simpl; intros Hh Hyx; [constructor; exact Hyx|].
  destruct (String.eqb x z); [exact Hh|].
  destruct (Rescrape.str_ltb x z); constructor; [exact Hyx|]. inversion Hh; assumption.
Qed.

Lemma insert_uniq_Sorted x l : Sorted str_lt l -> Sorted str_lt (Rescrape.insert_uniq x l).
Proof.
  induction l as [|z r IH]; simpl; intros Hs; [repeat constructor|].
  destruct (String.eqb x z) eqn:E; [exact Hs|].
  destruct (Rescrape.str_ltb x z) eqn:Lt.
  - constructor; [exact Hs | constructor; exact Lt].
  - inversion Hs as [|? ? Hr Hh]; subst.
    constructor; [apply IH, Hr|].
    apply insert_uniq_HdRel; [exact Hh|].
    apply str_ltb_total; [|exact Lt]. intros ->. rewrite String.eqb_refl in E. discriminate.
Qed.

Lemma sorted_set_Sorted xs : Sorted str_lt (Rescrape.sorted_set xs).
Proof. induction xs as [|x r IH]; simpl; [constructor | apply insert_uniq_Sorted, IH]. Qed.

(** [find_failed_days] returns its dates in strictly increasing string
    order, hence without repetition. *)
Theorem find_failed_days_sorted content :
  StronglySorted str_lt (Rescrape.find_failed_days content) /\
  NoDup (Rescrape.find_failed_days content).
Proof.
  assert (Hss : StronglySorted str_lt (Rescrape.find_failed_days content)).
  { apply Sorted_StronglySorted; [intros a b c; apply str_ltb_trans|].
    destruct content; [apply sorted_set_Sorted | constructor]. }
  split; [exact Hss|].
  induction Hss as [|a l Hl IH Hall]; constructor; [|exact IH].
  intros Hin. rewrite Forall_forall in Hall. specialize (Hall a Hin).
  unfold str_lt in Hall. rewrite str_ltb_irrefl in Hall. discriminate.
Qed.

Lemma find_failed_days_In txt ds :
  In ds (Rescrape.find_failed_days (Some txt)) <->
  Rescrape.strptime_ymd_ok ds = true /\
  exists line, In line (Rescrape.readlines txt) /\ Rescrape.is_failure_line line = true /\
               Rescrape.strip_brackets (Rescrape.before_colon line) = ds.
Proof.
  simpl. unfold Rescrape.failed_of_lines. rewrite sorted_set_In, filter_In, in_map_iff.
  split.
  - intros ((line & Hl & Hin) & Hok). apply filter_In in Hin as [Hin Hf].
    split; [exact Hok|]. exists line. auto.
  - intros (Hok & line & Hin & Hf & Hl). split; [|exact Hok].
    exists line. split; [exact Hl | apply filter_In; auto].
Qed.

(** The dates [find_failed_days] reports from a log are exactly the texts
    before the first colon (stripped of brackets and spaces) of the lines
    holding a failure marker, when [strptime] accepts them. *)
Theorem find_failed_days_iff txt ds :
  In ds (Rescrape.find_failed_days (Some txt)) <->
  Rescrape.strptime_ymd_ok ds = true /\
  exists line, In line (Rescrape.readlines txt) /\ Rescrape.is_failure_line line = true /\
               Rescrape.strip_brackets (Rescrape.before_colon line) = ds.
Proof. exact (find_failed_days_In txt ds). Qed.

(** *** Reading the log back *)

Lemma str_app_nil_r s : s ^^ EmptyString = s.
Proof. induction s as [|c s IH]; simpl; [reflexivity | rewrite IH; reflexivity]. Qed.

Lemma str_app_assoc a b c : (a ^^ b) ^^ c = a ^^ (b ^^ c).
Proof. induction a as [|x a IH]; simpl; [reflexivity | rewrite IH; reflexivity]. Qed.

Lemma join_cons x xs : String.concat "" (x :: xs) = x ^^ String.concat "" xs.
Proof. destruct xs; simpl; [rewrite str_app_nil_r|]; reflexivity. Qed.

Lemma readlines_aux_join s : forall cur,
  String.concat "" (Rescrape.readlines_aux s cur) = rev_str cur ^^ s.
Proof.
  induction s as [|c r IH]; intros cur; simpl.
  - destruct cur; simpl; [reflexivity | rewrite str_app_nil_r; reflexivity].
  - destruct (Ascii.eqb c (ascii_of_nat 10)).
    + rewrite join_cons, IH. simpl. rewrite str_app_assoc. reflexivity.
    + rewrite IH. simpl. rewrite str_app_assoc. reflexivity.
Qed.

(** [f.readlines()] loses nothing: joining the lines gives the file back. *)
Theorem readlines_join txt : String.concat "" (Rescrape.readlines txt) = txt.
Proof. unfold Rescrape.readlines. rewrite readlines_aux_join. reflexivity. Qed.

Lemma readlines_aux_line b : forall cur rest,
  nl_free b = true ->
  Rescrape.readlines_aux (b ^^ nl ^^ rest) cur =
  (rev_str cur ^^ b ^^ nl) :: Rescrape.readlines_aux rest EmptyString.
Proof.
  induction b as [|c b IH]; intros cur rest Hb.
  - reflexivity.
  - cbn [nl_free] in Hb. apply andb_true_iff in Hb as [Hc Hb]. apply negb_true_iff in Hc.
    cbn [String.append Rescrape.readlines_aux].
    rewrite Hc, IH by exact Hb.
    f_equal. simpl rev_str. rewrite str_app_assoc. reflexivity.
Qed.

Lemma readlines_concat lines :
  Forall log_line lines -> Rescrape.readlines (String.concat "" lines) = lines.
Proof.
  induction lines as [|l ls IH]; intros H; [reflexivity|].
  inversion H as [|? ? (b & -> & Hb) Hls]; subst.
  rewrite join_cons, str_app_assoc. unfold Rescrape.readlines.
  rewrite readlines_aux_line by exact Hb. simpl. f_equal. apply IH, Hls.
Qed.

(** Lines written one after the other, each ending in its only line feed,
    are read back by [f.readlines()] as exactly those lines. *)
Theorem readlines_of_log_lines lines :
  Forall log_line lines -> Rescrape.readlines (String.concat "" lines) = lines.
Proof. exact (readlines_concat lines). Qed.

Lemma readlines_of_log_lines_witness :
  Forall log_line [Fixtures.jan5_zero; "2010-01-06: 1 games scraped" ^^ nl] /\
  Rescrape.readlines (String.concat "" [Fixtures.jan5_zero; "2010-01-06: 1 games scraped" ^^ nl])
    = [Fixtures.jan5_zero; "2010-01-06: 1 games scraped" ^^ nl].
Proof.
  assert (H : Forall log_line [Fixtures.jan5_zero; "2010-01-06: 1 games scraped" ^^ nl]).
  { constructor; [exists "2010-01-05: 0 games scraped" | constructor; [exists "2010-01-06: 1 games scraped" | constructor]];
      split; reflexivity. }
  split; [exact H | exact (readlines_of_log_lines _ H)].
Defined.

(** *** Dates written by the scraper, read by the rescrape pass *)

Lemma strptime_ymd_ok_iff s :
  Rescrape.strptime_ymd_ok s = true <-> exists d, Rescrape.strptime_ymd s = Some d.
Proof.
  unfold Rescrape.strptime_ymd_ok, Rescrape.strptime_ymd.
  destruct (Rescrape.year4 s) as [[y r]|]; [|split; [discriminate | intros [d H]; discriminate]].
  destruct (Rescrape.after_dash r) as [r'|]; [|split; [discriminate | intros [d H]; discriminate]].
  destruct (Rescrape.first_month y (Rescrape.month_alts r')) as [[[[y' m] dd] rest]|];
    [|split; [discriminate | intros [d H]; discriminate]].
  destruct rest; [|split; [discriminate | intros [d H]; discriminate]].
  destruct ((1 <=? y') && (1 <=? dd) && (dd <=? days_in_month y' m)).
  - split; [intros _; eexists; reflexivity | reflexivity].
  - split; [discriminate | intros [d H]; discriminate].
Qed.

Lemma failed_day_parses content ds :
  In ds (Rescrape.find_failed_days content) -> exists d, Rescrape.strptime_ymd ds = Some d.
Proof.
  destruct content as [txt|]; [|intros []].
  simpl. unfold Rescrape.failed_of_lines. rewrite sorted_set_In, filter_In.
  intros [_ Hok]. apply strptime_ymd_ok_iff, Hok.
Qed.

(** Every date [find_failed_days] reports is one [datetime.strptime]
    accepts, so the [strptime] call of [rescrape_failed_days] never raises. *)
Theorem find_failed_days_parse content ds :
  In ds (Rescrape.find_failed_days content) -> exists d, Rescrape.strptime_ymd ds = Some d.
Proof. apply failed_day_parses. Qed.

Lemma find_failed_days_parse_witness :
  In "2010-01-05" (Rescrape.find_failed_days (Some Fixtures.jan5_zero)) /\
  exists d, Rescrape.strptime_ymd "2010-01-05" = Some d.
Proof.
  assert (H : In "2010-01-05" (Rescrape.find_failed_days (Some Fixtures.jan5_zero)))
    by (vm_compute; left; reflexivity).
  split; [exact H | exact (find_failed_days_parse _ _ H)].
Defined.

Lemma first_month_y y ms :
  Rescrape.first_month y ms =
  match Rescrape.first_month 0 ms with
  | Some (_, m, dd, rest) => Some (y, m, dd, rest)
  | None => None
  end.
Proof.
  induction ms as [|[m r] ms IH]; simpl; [reflexivity|].
  destruct (Rescrape.after_dash r) as [r'|]; [|exact IH].
  destruct (Rescrape.day_alts r') as [|[dd rest] ?]; [exact IH | reflexivity].
Qed.

Lemma year4_tail a b c e r v :
  Rescrape.year4 (String a (String b (String c (String e EmptyString)))) = Some (v, EmptyString) ->
  Rescrape.year4 (String a (String b (String c (String e r)))) = Some (v, r).
Proof.
  unfold Rescrape.year4.
  destruct (Rescrape.dig a), (Rescrape.dig b), (Rescrape.dig c), (Rescrape.dig e);
    intros H; try discriminate; injection H as <-; reflexivity.
Qed.

Lemma pad4_shape y :
  0 <= y <= 9999 ->
  exists a b c e,
    pad 4 y = String a (String b (String c (String e EmptyString))) /\
    (forall r, Rescrape.year4 (String a (String b (String c (String e r)))) = Some (y, r)) /\
    Ascii.eqb a ":"%char = false /\ Ascii.eqb b ":"%char = false /\
    Ascii.eqb c ":"%char = false /\ Ascii.eqb e ":"%char = false /\
    (Ascii.eqb a "["%char || Ascii.eqb a "]"%char || Ascii.eqb a " "%char) = false /\
    nl_free (String a (String b (String c (String e EmptyString)))) = true.
Proof.
  intros Hy.
  assert (Hall : forallb (fun n =>
    let y := Z.of_nat n in
    match pad 4 y with
    | String a (String b (String c (String e EmptyString))) =>
        match Rescrape.year4 (pad 4 y) with
        | Some (v, EmptyString) => Z.eqb v y
        | _ => false
        end
        && negb (Ascii.eqb a ":"%char) && negb (Ascii.eqb b ":"%char)
        && negb (Ascii.eqb c ":"%char) && negb (Ascii.eqb e ":"%char)
        && negb (Ascii.eqb a "["%char || Ascii.eqb a "]"%char || Ascii.eqb a " "%char)
        && nl_free (pad 4 y)
    | _ => false
    end) (seq 0 (100 * 100)) = true) by (vm_compute; reflexivity).
  rewrite forallb_forall in Hall. specialize (Hall (Z.to_nat y)).
  rewrite in_seq, Z2Nat.id in Hall by lia. specialize (Hall ltac:(lia)). cbv zeta in Hall.
  destruct (pad 4 y) as [|a [|b [|c [|e [|f r]]]]]; try discriminate.
  exists a, b, c, e.
  destruct (Rescrape.year4 _) as [[v [|x r]]|] eqn:Hy4;
    [|simpl in Hall; discriminate | simpl in Hall; discriminate].
  repeat rewrite andb_true_iff in Hall.
  destruct Hall as [[[[[[Hv H1] H2] H3] H4] H5] H6].
  apply Z.eqb_eq in Hv. subst v. apply negb_true_iff in H1, H2, H3, H4, H5.
  split; [reflexivity|]. split; [intros r; apply year4_tail, Hy4|]. tauto.
Qed.

Lemma month_day_shape m dd :
  1 <= m <= 12 -> 1 <= dd <= 31 ->
  Rescrape.first_month 0 (Rescrape.month_alts (pad 2 m ^^ "-" ^^ pad 2 dd))
    = Some (0, m, dd, EmptyString) /\
  Rescrape.before_colon (("-" ^^ pad 2 m ^^ "-" ^^ pad 2 dd) ^^ ": 0 games scraped" ^^ nl)
    = "-" ^^ pad 2 m ^^ "-" ^^ pad 2 dd /\
  nl_free ("-" ^^ pad 2 m ^^ "-" ^^ pad 2 dd) = true /\
  exists z w, rev_str ("-" ^^ pad 2 m ^^ "-" ^^ pad 2 dd) = String z w /\
              (Ascii.eqb z "["%char || Ascii.eqb z "]"%char || Ascii.eqb z " "%char) = false.
Proof.
  intros Hm Hd.
  assert (Hall : forallb (fun i => forallb (fun j =>
    let m := Z.of_nat i in let dd := Z.of_nat j in
    let T := "-" ^^ pad 2 m ^^ "-" ^^ pad 2 dd in
    match Rescrape.first_month 0 (Rescrape.month_alts (pad 2 m ^^ "-" ^^ pad 2 dd)) with
    | Some (0, m', dd', EmptyString) => Z.eqb m' m && Z.eqb dd' dd
    | _ => false
    end
    && String.eqb (Rescrape.before_colon (T ^^ ": 0 games scraped" ^^ nl)) T
    && nl_free T
    && match rev_str T with
       | String z _ => negb (Ascii.eqb z "["%char || Ascii.eqb z "]"%char || Ascii.eqb z " "%char)
       | EmptyString => false
       end) (seq 1 31)) (seq 1 12) = true) by (vm_compute; reflexivity).
  rewrite forallb_forall in Hall. specialize (Hall (Z.to_nat m)).
  rewrite in_seq, Z2Nat.id in Hall by lia. specialize (Hall ltac:(lia)).
  rewrite forallb_forall in Hall. specialize (Hall (Z.to_nat dd)).
  rewrite in_seq, Z2Nat.id in Hall by lia. specialize (Hall ltac:(lia)). cbv zeta in Hall.
  destruct (Rescrape.first_month 0 _) as [[[[y0 m'] dd'] rest]|] eqn:Hfm;
    [|simpl in Hall; discriminate].
  destruct y0 as [|p|p], rest as [|x r]; try (simpl in Hall; discriminate).
  cbv beta iota in Hall.
  repeat rewrite andb_true_iff in Hall.
  destruct Hall as [[[[Hm' Hd'] Hbc] Hnl] Hrev].
  apply Z.eqb_eq in Hm', Hd'. subst m' dd'. apply String.eqb_eq in Hbc.
  split; [reflexivity|]. split; [exact Hbc|]. split; [exact Hnl|].
  destruct (rev_str _) as [|z w]; [discriminate|]. exists z, w.
  split; [reflexivity | apply negb_true_iff, Hrev].
Qed.

Lemma days_in_month_le_31 y m : days_in_month y m <= 31.
Proof. unfold days_in_month. destruct (m =? 2), (is_leap y), (existsb (Z.eqb m) [4; 6; 9; 11]); lia. Qed.

Lemma date_str_shape d :
  valid_date d ->
  exists a b c e,
    date_str d = String a (String b (String c (String e
                   ("-" ^^ pad 2 (month d) ^^ "-" ^^ pad 2 (day d))))) /\
    (forall r, Rescrape.year4 (String a (String b (String c (String e r)))) = Some (year d, r)) /\
    Ascii.eqb a ":"%char = false /\ Ascii.eqb b ":"%char = false /\
    Ascii.eqb c ":"%char = false /\ Ascii.eqb e ":"%char = false /\
    (Ascii.eqb a "["%char || Ascii.eqb a "]"%char || Ascii.eqb a " "%char) = false /\
    nl_free (String a (String b (String c (String e EmptyString)))) = true.
Proof.
  intros (Hy & _ & _).
  destruct (pad4_shape (year d)) as (a & b & c & e & Hp & Hrest) ; [lia|].
  exists a, b, c, e. split; [unfold date_str; rewrite Hp; reflexivity | exact Hrest].
Qed.

Lemma strptime_ymd_date_str d :
  valid_date d -> Rescrape.strptime_ymd (date_str d) = Some d.
Proof.
  intros Hv. pose proof (days_in_month_le_31 (year d) (month d)) as H31.
  destruct (date_str_shape d Hv) as (a & b & c & e & Hds & Hy4 & _).
  destruct Hv as (Hy & Hm & Hd).
  destruct (month_day_shape (month d) (day d)) as (Hfm & _); [lia | lia |].
  unfold Rescrape.strptime_ymd. rewrite Hds, Hy4.
  change (Rescrape.after_dash ("-" ^^ pad 2 (month d) ^^ "-" ^^ pad 2 (day d)))
    with (Some (pad 2 (month d) ^^ "-" ^^ pad 2 (day d))).
  cbv beta iota. rewrite first_month_y, Hfm. cbv beta iota.
  assert (E : (1 <=? year d) && (1 <=? day d) && (day d <=? days_in_month (year d) (month d)) = true)
    by (rewrite !andb_true_iff, !Z.leb_le; lia).
  rewrite E. destruct d; reflexivity.
Qed.

(** [strftime("%Y-%m-%d")] and [strptime(..., "%Y-%m-%d")] are inverse:
    the date [scrape_day] writes into a log line is read back by
    [rescrape_failed_days] as the same day, for every valid date. *)
Theorem strptime_date_str d :
  valid_date d -> Rescrape.strptime_ymd (date_str d) = Some d.
Proof. exact (strptime_ymd_date_str d). Qed.

Lemma strptime_date_str_witness :
  valid_date (mkDate 2012 2 29) /\ Rescrape.strptime_ymd (date_str (mkDate 2012 2 29)) = Some (mkDate 2012 2 29).
Proof.
  assert (H : valid_date (mkDate 2012 2 29)) by (unfold valid_date; repeat split; vm_compute; intros Hc; discriminate Hc).
  split; [exact H | exact (strptime_date_str _ H)].
Defined.

Lemma contains_app_l sub u t : contains sub t = true -> contains sub (u ^^ t) = true.
Proof.
  intros H. induction u as [|c u IH]; simpl; [exact H | rewrite IH; apply orb_true_r].
Qed.

Lemma rev_str_app u v : rev_str (u ^^ v) = rev_str v ^^ rev_str u.
Proof.
  induction u as [|c u IH]; simpl; [symmetry; apply str_app_nil_r|].
  rewrite IH, str_app_assoc. reflexivity.
Qed.

Lemma rev_str_involutive s : rev_str (rev_str s) = s.
Proof.
  induction s as [|c s IH]; simpl; [reflexivity|].
  rewrite rev_str_app, IH. reflexivity.
Qed.

Lemma nl_free_app u v : nl_free (u ^^ v) = nl_free u && nl_free v.
Proof.
  induction u as [|c u IH]; simpl; [reflexivity|]. rewrite IH, andb_assoc. reflexivity.
Qed.

Lemma before_colon_cons c r :
  Ascii.eqb c ":"%char = false -> Rescrape.before_colon (String c r) = String c (Rescrape.before_colon r).
Proof. intros H. simpl. rewrite H. reflexivity. Qed.

Lemma date_str_nl_free d : valid_date d -> nl_free (date_str d) = true.
Proof.
  intros Hv. pose proof (days_in_month_le_31 (year d) (month d)) as H31.
  destruct (date_str_shape d Hv) as (a & b & c & e & Hds & _ & _ & _ & _ & _ & _ & Hnl).
  destruct Hv as (Hy & Hm & Hd).
  destruct (month_day_shape (month d) (day d)) as (_ & _ & HnlT & _); [lia | lia |].
  rewrite Hds.
  change (String a (String b (String c (String e ("-" ^^ pad 2 (month d) ^^ "-" ^^ pad 2 (day d))))))
    with (String a (String b (String c (String e EmptyString))) ^^ ("-" ^^ pad 2 (month d) ^^ "-" ^^ pad 2 (day d))).
  rewrite nl_free_app, Hnl, HnlT. reflexivity.
Qed.

(** The line [scrape_day] writes for a day with no rows is one that
    [find_failed_days] flags, and its text before the colon, stripped of
    brackets and spaces, is the day's [%Y-%m-%d] string. *)
Lemma zero_line_fields d :
  valid_date d ->
  Rescrape.is_failure_line (zero_line d) = true /\
  Rescrape.strip_brackets (Rescrape.before_colon (zero_line d)) = date_str d.
Proof.
  intros Hv. pose proof (days_in_month_le_31 (year d) (month d)) as H31.
  destruct (date_str_shape d Hv) as (a & b & c & e & Hds & _ & Ha & Hb & Hc & He & Hbr & _).
  destruct Hv as (Hy & Hm & Hd).
  destruct (month_day_shape (month d) (day d)) as (_ & Hbc & _ & z & w & Hrev & Hz); [lia | lia |].
  split.
  - unfold Rescrape.is_failure_line, zero_line.
    rewrite (contains_app_l _ (date_str d) (": 0 games scraped" ^^ nl)) by reflexivity.
    reflexivity.
  - set (T := "-" ^^ pad 2 (month d) ^^ "-" ^^ pad 2 (day d)) in *.
    assert (Hbcol : Rescrape.before_colon (zero_line d) = date_str d).
    { unfold zero_line. rewrite Hds.
      change (String a (String b (String c (String e T))) ^^ ": 0 games scraped" ^^ nl)
        with (String a (String b (String c (String e (T ^^ ": 0 games scraped" ^^ nl))))).
      rewrite !before_colon_cons by assumption. rewrite Hbc. reflexivity. }
    rewrite Hbcol, Hds. unfold Rescrape.strip_brackets, strip_by.
    cbn [lstrip_by]. rewrite Hbr.
    change (String a (String b (String c (String e T))))
      with (String a (String b (String c (String e EmptyString))) ^^ T).
    rewrite rev_str_app, Hrev. cbn [String.append lstrip_by]. rewrite Hz.
    change (String z (w ^^ rev_str (String a (String b (String c (String e EmptyString))))))
      with (String z w ^^ rev_str (String a (String b (String c (String e EmptyString))))).
    rewrite <- Hrev, <- rev_str_app, rev_str_involutive. reflexivity.
Qed.

(** End to end: when the log file is made of the lines the scraper writes
    (text without a line feed, then a line feed) and one of them is the
    ["<day>: 0 games scraped"] line of a valid day, [find_failed_days]
    reports that day. *)
Theorem zero_day_reported lines d :
  Forall log_line lines -> In (zero_line d) lines -> valid_date d ->
  In (date_str d) (Rescrape.find_failed_days (Some (String.concat "" lines))).
Proof.
  intros Hlog Hin Hv. apply find_failed_days_In.
  destruct (zero_line_fields d Hv) as [Hf Hs].
  split; [apply strptime_ymd_ok_iff; exists d; apply strptime_ymd_date_str, Hv|].
  exists (zero_line d). rewrite readlines_concat by exact Hlog. auto.
Qed.

Lemma zero_day_reported_witness :
  Forall log_line [zero_line (mkDate 2010 1 5)] /\ In (zero_line (mkDate 2010 1 5)) [zero_line (mkDate 2010 1 5)] /\
  valid_date (mkDate 2010 1 5) /\
  In (date_str (mkDate 2010 1 5)) (Rescrape.find_failed_days (Some (String.concat "" [zero_line (mkDate 2010 1 5)]))).
Proof.
  assert (H1 : Forall log_line [zero_line (mkDate 2010 1 5)])
    by (constructor; [exists "2010-01-05: 0 games scraped"; split; reflexivity | constructor]).
  assert (H2 : In (zero_line (mkDate 2010 1 5)) [zero_line (mkDate 2010 1 5)]) by (left; reflexivity).
  assert (H3 : valid_date (mkDate 2010 1 5))
    by (unfold valid_date; repeat split; vm_compute; intros Hc; discriminate Hc).
  split; [exact H1 | split; [exact H2 | split; [exact H3 | exact (zero_day_reported _ _ H1 H2 H3)]]].
Defined.

(** *** The days of a run and the lines of its log *)


Lemma days_in_month_ge_28 y m : 28 <= days_in_month y m.
Proof. unfold days_in_month. destruct (m =? 2), (is_leap y), (existsb (Z.eqb m) [4; 6; 9; 11]); lia. Qed.

Lemma next_day_weak_valid d : weak_valid d -> weak_valid (next_day d).
Proof.
  intros (Hy & Hm & Hd). pose proof (days_in_month_ge_28 (year d) (month d + 1)).
  pose proof (days_in_month_ge_28 (year d + 1) 1).
  unfold next_day, weak_valid.
  destruct (day d <? days_in_month (year d) (month d)) eqn:E1;
    [apply Z.ltb_lt in E1; simpl; lia|].
  destruct (month d <? 12) eqn:E2; [apply Z.ltb_lt in E2 | apply Z.ltb_ge in E2]; simpl; lia.
Qed.

Lemma date_leb_iff d1 d2 :
  date_leb d1 d2 = true <->
  year d1 < year d2 \/ (year d1 = year d2 /\ (month d1 < month d2 \/ (month d1 = month d2 /\ day d1 <= day d2))).
Proof.
  unfold date_leb. rewrite orb_true_iff, andb_true_iff, orb_true_iff, andb_true_iff,
    Z.ltb_lt, Z.eqb_eq, Z.ltb_lt, Z.eqb_eq, Z.leb_le. reflexivity.
Qed.

Lemma date_leb_trans a b c : date_leb a b = true -> date_leb b c = true -> date_leb a c = true.
Proof. rewrite !date_leb_iff. lia. Qed.

Lemma date_leb_next_day d : weak_valid d -> date_leb d (next_day d) = true.
Proof.
  intros (Hy & Hm & Hd). apply date_leb_iff. unfold next_day.
  destruct (day d <? days_in_month (year d) (month d)) eqn:E1;
    [apply Z.ltb_lt in E1; simpl; lia|].
  destruct (month d <? 12) eqn:E2; [apply Z.ltb_lt in E2 | apply Z.ltb_ge in E2]; simpl; lia.
Qed.

Lemma range_from_bounds lo cur end_ fuel d :
  weak_valid cur -> date_leb lo cur = true -> In d (range_from cur end_ fuel) ->
  valid_date d /\ date_leb lo d = true /\ date_leb d end_ = true
  \/ year end_ > 9999.
Proof.
  revert cur. induction fuel as [|f IH]; intros cur Hw Hlo Hin; simpl in Hin; [destruct Hin|].
  destruct (date_leb cur end_) eqn:E; [|destruct Hin].
  destruct Hin as [<-|Hin].
  - pose proof (proj1 (date_leb_iff _ _) E) as E'.
    destruct (Z_le_gt_dec (year cur) 9999) as [Hle|Hgt]; [|right; lia].
    destruct Hw as (Hy & Hm & Hd).
    left. split; [unfold valid_date; lia | auto].
  - apply (IH (next_day cur)); [apply next_day_weak_valid, Hw | | exact Hin].
    apply (date_leb_trans _ cur); [exact Hlo | apply date_leb_next_day, Hw].
Qed.

(** Every day [run_auto_scrape] visits ([while current <= end_date],
    one day at a time) is a valid calendar date between the start and the
    end dates, both included. *)
Theorem range_days_bounds start end_ d :
  valid_date start -> valid_date end_ -> In d (range_days start end_) ->
  valid_date d /\ date_leb start d = true /\ date_leb d end_ = true.
Proof.
  intros Hs He Hin. destruct Hs as (Hy & Hm & Hd).
  destruct (range_from_bounds start start end_ (Z.to_nat (toordinal end_ - toordinal start + 1)) d) as [H|H];
    [unfold weak_valid; lia | apply date_leb_iff; lia | exact Hin | exact H |].
  destruct He. lia.
Qed.

Lemma range_days_bounds_witness :
  valid_date (mkDate 2010 1 1) /\ valid_date (mkDate 2010 1 3) /\
  In (mkDate 2010 1 2) (range_days (mkDate 2010 1 1) (mkDate 2010 1 3)) /\
  (valid_date (mkDate 2010 1 2) /\ date_leb (mkDate 2010 1 1) (mkDate 2010 1 2) = true /\
   date_leb (mkDate 2010 1 2) (mkDate 2010 1 3) = true).
Proof.
  assert (H1 : valid_date (mkDate 2010 1 1))
    by (unfold valid_date; repeat split; vm_compute; intros Hc; discriminate Hc).
  assert (H2 : valid_date (mkDate 2010 1 3))
    by (unfold valid_date; repeat split; vm_compute; intros Hc; discriminate Hc).
  assert (H3 : In (mkDate 2010 1 2) (range_days (mkDate 2010 1 1) (mkDate 2010 1 3)))
    by (vm_compute; right; left; reflexivity).
  split; [exact H1 | split; [exact H2 | split; [exact H3 | exact (range_days_bounds _ _ _ H1 H2 H3)]]].
Defined.

Lemma ascii_digit_not_nl k : (48 <= k <= 57)%nat -> Ascii.eqb (ascii_of_nat k) (ascii_of_nat 10) = false.
Proof.
  intros Hk. destruct (Ascii.eqb _ _) eqn:E; [|reflexivity].
  apply Ascii.eqb_eq in E. apply (f_equal nat_of_ascii) in E.
  rewrite !nat_ascii_embedding in E by lia. lia.
Qed.

Lemma dec_aux_nl_free fuel n acc :
  0 <= n -> nl_free acc = true -> nl_free (dec_aux fuel n acc) = true.
Proof.
  revert n acc. induction fuel as [|f IH]; intros n acc Hn Hacc; simpl; [exact Hacc|].
  assert (Hc : nl_free (String (ascii_of_nat (Z.to_nat (48 + n mod 10))) acc) = true).
  { cbn [nl_free]. rewrite ascii_digit_not_nl, Hacc; [reflexivity|].
    pose proof (Z.mod_pos_bound n 10 ltac:(lia)). lia. }
  destruct (n <? 10); [exact Hc|].
  apply IH; [apply Z.div_pos; lia | exact Hc].
Qed.

Lemma show_Z_nl_free n : 0 <= n -> nl_free (show_Z n) = true.
Proof.
  intros Hn. unfold show_Z. replace (n <? 0) with false by (symmetry; apply Z.ltb_ge; lia).
  apply dec_aux_nl_free; [lia | reflexivity].
Qed.


Lemma ledger_log_lines_refl s : ledger_log_lines s s.
Proof. unfold ledger_log_lines. auto. Qed.

Lemma ledger_log_lines_trans s1 s2 s3 :
  ledger_log_lines s1 s2 -> ledger_log_lines s2 s3 -> ledger_log_lines s1 s3.
Proof. unfold ledger_log_lines. auto. Qed.

Lemma same_ledger_log_lines {A} (m : M A) :
  preserves same_ledger m -> preserves ledger_log_lines m.
Proof. intros H s. unfold ledger_log_lines. rewrite (H s). auto. Qed.

Lemma scrape_day_log_lines net rnd lk d :
  valid_date d -> preserves ledger_log_lines (scrape_day net rnd lk d).
Proof.
  intros Hv s Hs. rewrite scrape_day_ledger_eq. apply Forall_app. split; [exact Hs|].
  destruct (fst _); [|constructor]. destruct lk; [constructor|].
  constructor; [|constructor].
  exists (date_str d ^^ ": " ^^ show_Z (Z.of_nat (length (fst (scrape_day net rnd false d s))))
          ^^ " games scraped").
  split; [rewrite !str_app_assoc; reflexivity|].
  rewrite !nl_free_app, date_str_nl_free, show_Z_nl_free by (assumption || lia). reflexivity.
Qed.

Lemma run_days_log_lines net rnd lk E days :
  Forall valid_date days -> preserves ledger_log_lines (run_days net rnd lk E days).
Proof.
  induction days as [|d days IH]; intros Hv; simpl.
  - apply preserves_ret, ledger_log_lines_refl.
  - inversion Hv as [|? ? Hd Hdays]; subst.
    apply (preserves_bind _ ledger_log_lines_trans).
    + destruct (mem_str _ _); [apply preserves_ret, ledger_log_lines_refl|].
      apply (preserves_bind _ ledger_log_lines_trans); [apply scrape_day_log_lines, Hd|].
      intros df. apply same_ledger_log_lines. unfold append_to_master, get_store, set_store.
      walk_preserves same_ledger_refl same_ledger_trans; prim_store.
    + intros _. apply (preserves_bind _ ledger_log_lines_trans);
        [apply same_ledger_log_lines; intros s; reflexivity | intros _; exact (IH Hdays)].
Qed.

(** A run between two valid dates keeps the log file a sequence of
    complete lines: every line it appends is text without a line feed,
    followed by one line feed. *)
Theorem run_auto_scrape_log_lines net rnd lk start_date end_date s :
  valid_date start_date -> valid_date end_date -> Forall log_line (ledger s) ->
  Forall log_line (ledger (snd (run_auto_scrape net rnd lk start_date end_date s))).
Proof.
  intros Hs He Hl.
  change (run_auto_scrape net rnd lk start_date end_date s)
    with (run_days net rnd lk (fst (get_existing_dates s)) (range_days start_date end_date) s).
  apply run_days_log_lines; [|exact Hl].
  apply Forall_forall. intros d Hin. apply (range_from_bounds start_date start_date end_date _ d) in Hin.
  - destruct Hin as [H|H]; [apply H | destruct He; lia].
  - destruct Hs as (? & ? & ?). unfold weak_valid. lia.
  - destruct Hs as (? & ? & ?). apply date_leb_iff. lia.
Qed.

Lemma run_auto_scrape_log_lines_witness :
  valid_date Fixtures.jan5 /\ valid_date Fixtures.jan6 /\ Forall log_line (ledger Fixtures.s_init) /\
  Forall log_line (ledger (snd (run_auto_scrape Fixtures.net_one_game Fixtures.no_jitter false
                                  Fixtures.jan5 Fixtures.jan6 Fixtures.s_init))).
Proof.
  assert (H1 : valid_date Fixtures.jan5)
    by (unfold valid_date; repeat split; vm_compute; intros Hc; discriminate Hc).
  assert (H2 : valid_date Fixtures.jan6)
    by (unfold valid_date; repeat split; vm_compute; intros Hc; discriminate Hc).
  assert (H3 : Forall log_line (ledger Fixtures.s_init)) by constructor.
  split; [exact H1 | split; [exact H2 | split; [exact H3 |]]].
  exact (run_auto_scrape_log_lines _ _ _ _ _ _ H1 H2 H3).
Defined.

(** *** [scrape_range] of [rebuild_scores_25yrs.py] *)

Lemma gotos_app a b : gotos (a ++ b) = gotos a ++ gotos b.
Proof. unfold gotos. apply flat_map_app. Qed.

Lemma scrape_days_nav browse days wh t st :
  let R := Rebuild.scrape_days browse days wh t st in
  exists evs,
    Rebuild.r_events (snd R) = Rebuild.r_events st ++ evs /\
    Rebuild.r_gotos (snd R) = (Rebuild.r_gotos st + length (gotos evs))%nat /\
    (fst R <> None -> gotos evs = map scoreboard_url (filter Rebuild.is_in_season days)) /\
    exists k, gotos evs = firstn k (map scoreboard_url (filter Rebuild.is_in_season days)).
Proof.
  revert wh t st. induction days as [|d rest IH]; intros wh t st; cbv zeta.
  - exists []. simpl. rewrite app_nil_r, Nat.add_0_r. split; [reflexivity|].
    split; [reflexivity|]. split; [reflexivity | exists O; reflexivity].
  - simpl Rebuild.scrape_days. simpl filter.
    destruct (Rebuild.is_in_season d) eqn:Hs; simpl negb; cbv iota; [|apply IH].
    set (url := scoreboard_url d).
    assert (Hstep : forall st'' ext wh' t',
      Rebuild.r_events st'' = Rebuild.r_events st ++ Rebuild.RGoto url :: ext ->
      gotos ext = [] -> Rebuild.r_gotos st'' = S (Rebuild.r_gotos st) ->
      let R := Rebuild.scrape_days browse rest wh' t' st'' in
      exists evs,
        Rebuild.r_events (snd R) = Rebuild.r_events st ++ evs /\
        Rebuild.r_gotos (snd R) = (Rebuild.r_gotos st + length (gotos evs))%nat /\
        (fst R <> None -> gotos evs = map scoreboard_url (d :: filter Rebuild.is_in_season rest)) /\
        exists k, gotos evs = firstn k (map scoreboard_url (d :: filter Rebuild.is_in_season rest))).
    { intros st'' ext wh' t' He Hx Hg. cbv zeta.
      destruct (IH wh' t' st'') as (evs & E1 & E2 & E3 & k & E4).
      exists (Rebuild.RGoto url :: ext ++ evs).
      rewrite E1, He, <- app_assoc. split; [reflexivity|].
      assert (Hg' : gotos (Rebuild.RGoto url :: ext ++ evs) = url :: gotos evs)
        by (change (Rebuild.RGoto url :: ext ++ evs) with ([Rebuild.RGoto url] ++ ext ++ evs);
            rewrite !gotos_app, Hx; reflexivity).
      rewrite Hg', E2, Hg. split; [simpl; lia|].
      split; [intros Hn; simpl; rewrite (E3 Hn); reflexivity|].
      exists (S k). simpl. rewrite E4. reflexivity. }
    destruct (browse (Rebuild.r_gotos st) url) as [pg|].
    + destruct (contains "no box scores" (lower (Rebuild.pg_html pg))).
      * apply (Hstep _ [Rebuild.RSleep (1 # 10)]); simpl; [rewrite <- app_assoc; reflexivity | reflexivity | reflexivity].
      * destruct (Rebuild.parse_day (Rebuild.pg_boxes pg) d) as [|g gs].
        -- apply (Hstep _ [Rebuild.RSleep (125 # 100)]); simpl;
             [rewrite <- app_assoc; reflexivity | reflexivity | reflexivity].
        -- apply (Hstep _ [Rebuild.RSleep (125 # 100)]); simpl;
             [rewrite <- app_assoc; reflexivity | reflexivity | reflexivity].
    + exists [Rebuild.RGoto url]. simpl. split; [reflexivity|]. split; [lia|].
      split; [intros Hn; exfalso; apply Hn; reflexivity | exists 1%nat; reflexivity].
Qed.

(** [scrape_range] navigates to the scoreboards of the in-season days of
    the range, in calendar order, each once and nothing else: the whole
    list when the run completes, a prefix of it when a navigation raises.
    Off-season days are never fetched. *)
Theorem scrape_range_navigation browse start end_ st :
  let R := Rebuild.scrape_range browse start end_ st in
  exists evs,
    Rebuild.r_events (snd R) = Rebuild.r_events st ++ evs /\
    Rebuild.r_gotos (snd R) = (Rebuild.r_gotos st + length (gotos evs))%nat /\
    (fst R <> None ->
     gotos evs = map scoreboard_url (filter Rebuild.is_in_season (range_days start end_))) /\
    exists k, gotos evs = firstn k (map scoreboard_url (filter Rebuild.is_in_season (range_days start end_))).
Proof.
  exact (scrape_days_nav browse (range_days start end_) true 0
           (Rebuild.mkRSt (Rebuild.r_gotos st) (Rebuild.r_events st) None)).
Qed.

Lemma scrape_days_out browse days wh t st :
  out_inv wh t (Rebuild.r_out st) ->
  exists wh' t', out_inv wh' t' (Rebuild.r_out (snd (Rebuild.scrape_days browse days wh t st))) /\
                 (fst (Rebuild.scrape_days browse days wh t st) = None \/
                  fst (Rebuild.scrape_days browse days wh t st) = Some t').
Proof.
  revert wh t st. induction days as [|d rest IH]; intros wh t st Hinv; simpl.
  - exists wh, t. auto.
  - destruct (Rebuild.is_in_season d); simpl negb; cbv iota; [|apply IH, Hinv].
    destruct (browse (Rebuild.r_gotos st) (scoreboard_url d)) as [pg|]; [|exists wh, t; simpl; auto].
    destruct (contains "no box scores" (lower (Rebuild.pg_html pg))); [apply IH, Hinv|].
    destruct (Rebuild.parse_day (Rebuild.pg_boxes pg) d) as [|g gs] eqn:Hg; [apply IH, Hinv|].
    apply IH. unfold out_inv in *. simpl. right. split; [reflexivity|].
    destruct Hinv as [(-> & -> & ->) | (-> & rows & -> & Hne & ->)].
    + exists (g :: gs). split; [reflexivity|]. split; [discriminate|]. reflexivity.
    + exists (rows ++ g :: gs). rewrite map_app. split; [reflexivity|].
      split; [destruct rows; discriminate|]. rewrite length_app, Nat2Z.inj_add. reflexivity.
Qed.

(** [scrape_range] deletes the output file before it starts: afterwards
    the file is absent (no day had games) or holds exactly one header line
    followed by a non-empty list of rows. When the run completes, the
    returned [total_rows] is the number of rows in the file. *)
Theorem scrape_range_output browse start end_ st :
  let R := Rebuild.scrape_range browse start end_ st in
  exists t,
    (Rebuild.r_out (snd R) = None /\ t = 0 \/
     exists rows, Rebuild.r_out (snd R) = Some (Rebuild.OutHeader :: map Rebuild.OutRow rows) /\
                  rows <> [] /\ t = Z.of_nat (length rows)) /\
    (fst R = None \/ fst R = Some t).
Proof.
  cbv zeta. unfold Rebuild.scrape_range.
  destruct (scrape_days_out browse (range_days start end_) true 0
              (Rebuild.mkRSt (Rebuild.r_gotos st) (Rebuild.r_events st) None)) as (wh & t & Hinv & Hr);
    [left; auto|].
  exists t. split; [|exact Hr].
  destruct Hinv as [(_ & Ho & Ht) | (_ & rows & Ho & Hne & Ht)]; [left; auto | right; eauto].
Qed.

Lemma scrape_days_rows browse days wh t st r :
  In (Rebuild.OutRow r) (out_lines (Rebuild.r_out (snd (Rebuild.scrape_days browse days wh t st)))) ->
  In (Rebuild.OutRow r) (out_lines (Rebuild.r_out st)) \/
  exists d n pg, In d days /\ Rebuild.is_in_season d = true /\
                 browse n (scoreboard_url d) = Some pg /\ In r (Rebuild.parse_day (Rebuild.pg_boxes pg) d).
Proof.
  revert wh t st. induction days as [|d rest IH]; intros wh t st; simpl; [auto|].
  destruct (Rebuild.is_in_season d) eqn:Hs; simpl negb; cbv iota.
  2:{ intros H. destruct (IH _ _ _ H) as [H1|(d' & n & pg & H1 & H2 & H3 & H4)]; [auto|].
      right. exists d', n, pg. auto. }
  destruct (browse (Rebuild.r_gotos st) (scoreboard_url d)) as [pg|] eqn:Hb; [|simpl; auto].
  assert (Hlift : forall st'', out_lines (Rebuild.r_out st'') = out_lines (Rebuild.r_out st) ->
             forall wh' t', In (Rebuild.OutRow r) (out_lines (Rebuild.r_out (snd (Rebuild.scrape_days browse rest wh' t' st'')))) ->
             In (Rebuild.OutRow r) (out_lines (Rebuild.r_out st)) \/
             exists d0 n pg0, (d = d0 \/ In d0 rest) /\ Rebuild.is_in_season d0 = true /\
               browse n (scoreboard_url d0) = Some pg0 /\ In r (Rebuild.parse_day (Rebuild.pg_boxes pg0) d0)).
  { intros st'' Heq wh' t' H. destruct (IH _ _ _ H) as [H1|(d' & n & pg' & H1 & H2 & H3 & H4)].
    - left. rewrite <- Heq. exact H1.
    - right. exists d', n, pg'. auto. }
  destruct (contains "no box scores" (lower (Rebuild.pg_html pg))); [apply Hlift; reflexivity|].
  destruct (Rebuild.parse_day (Rebuild.pg_boxes pg) d) as [|g gs] eqn:Hg; [apply Hlift; reflexivity|].
  intros H. destruct (IH _ _ _ H) as [H1|(d' & n & pg' & H1 & H2 & H3 & H4)]; [|right; exists d', n, pg'; auto].
  simpl in H1. rewrite in_app_iff, in_app_iff in H1.
  destruct H1 as [H1|[H1|H1]].
  - left. exact H1.
  - destruct wh; simpl in H1; [destruct H1 as [H1|[]]; discriminate | destruct H1].
  - right. exists d, (Rebuild.r_gotos st), pg. split; [left; reflexivity|].
    split; [exact Hs|]. split; [exact Hb|]. rewrite Hg.
    change (Rebuild.OutRow g :: map Rebuild.OutRow gs) with (map Rebuild.OutRow (g :: gs)) in H1.
    apply in_map_iff in H1 as (r' & Hr & Hin). injection Hr as ->. exact Hin.
Qed.

(** Every row [scrape_range] writes is one that [parse_day] returned for
    the page of an in-season day of the range. *)
Theorem scrape_range_rows browse start end_ st r :
  In (Rebuild.OutRow r) (out_lines (Rebuild.r_out (snd (Rebuild.scrape_range browse start end_ st)))) ->
  exists d n pg, In d (range_days start end_) /\ Rebuild.is_in_season d = true /\
                 browse n (scoreboard_url d) = Some pg /\ In r (Rebuild.parse_day (Rebuild.pg_boxes pg) d).
Proof.
  intros H. apply scrape_days_rows in H as [[]|H]. exact H.
Qed.

Lemma scrape_range_rows_witness :
  In (Rebuild.OutRow (Rebuild.mkRRow (Rebuild.us_date Fixtures.jan5) "UNC" "Duke" 65 70 135 (-5) 0))
     (out_lines (Rebuild.r_out (snd (Rebuild.scrape_range Fixtures.browse_jan5 Fixtures.jan5 Fixtures.jan5
                                       (Rebuild.mkRSt 0 [] None))))) /\
  exists d n pg, In d (range_days Fixtures.jan5 Fixtures.jan5) /\ Rebuild.is_in_season d = true /\
                 Fixtures.browse_jan5 n (scoreboard_url d) = Some pg /\
                 In (Rebuild.mkRRow (Rebuild.us_date Fixtures.jan5) "UNC" "Duke" 65 70 135 (-5) 0)
                    (Rebuild.parse_day (Rebuild.pg_boxes pg) d).
Proof.
  assert (H : In (Rebuild.OutRow (Rebuild.mkRRow (Rebuild.us_date Fixtures.jan5) "UNC" "Duke" 65 70 135 (-5) 0))
     (out_lines (Rebuild.r_out (snd (Rebuild.scrape_range Fixtures.browse_jan5 Fixtures.jan5 Fixtures.jan5
                                       (Rebuild.mkRSt 0 [] None)))))) by (vm_compute; right; left; reflexivity).
  split; [exact H | exact (scrape_range_rows _ _ _ _ _ H)].
Defined.

(** *** [rescrape_failed_days] *)

Lemma rescrape_one_appends net rnd lk ds : preserves appends_rows (Rescrape.rescrape_one net rnd lk ds).
Proof.
  unfold Rescrape.rescrape_one. destruct (Rescrape.strptime_ymd ds) as [d|];
    [|apply preserves_ret, appends_rows_refl].
  apply (preserves_bind _ appends_rows_trans);
    [apply same_store_appends, scrape_day_store | intros df; apply append_to_master_appends].
Qed.

(** [rescrape_failed_days] only adds rows at the end of the output file
    (creating it with its header when absent); it never rewrites or drops
    a line already there. *)
Theorem rescrape_failed_days_appends net rnd lk content s :
  appends_rows s (snd (Rescrape.rescrape_failed_days net rnd lk content s)).
Proof.
  revert s. unfold Rescrape.rescrape_failed_days.
  destruct (Rescrape.find_failed_days content) as [|ds rest];
    [apply preserves_ret, appends_rows_refl|].
  apply (preserves_bind _ appends_rows_trans);
    [apply (preserves_mapM _ appends_rows_refl appends_rows_trans), rescrape_one_appends
    | intros _; apply preserves_ret, appends_rows_refl].
Qed.

Lemma mapM_rescrape_chain net rnd lk L : forall s,
  Forall (fun ds => exists d, Rescrape.strptime_ymd ds = Some d) L ->
  rescrape_chain net rnd lk L s (snd (mapM (Rescrape.rescrape_one net rnd lk) L s)).
Proof.
  induction L as [|ds L IH]; intros s HL; [reflexivity|].
  inversion HL as [|? ? [d Hd] HL']; subst.
  exists d. split; [exact Hd|]. split; [apply scrape_day_first_event|].
  cbn [mapM]. unfold bind at 1.
  replace (Rescrape.rescrape_one net rnd lk ds s)
    with (append_to_master (fst (scrape_day net rnd lk d s)) (snd (scrape_day net rnd lk d s)))
    by (unfold Rescrape.rescrape_one; rewrite Hd; unfold bind;
        destruct (scrape_day net rnd lk d s); reflexivity).
  destruct (append_to_master (fst (scrape_day net rnd lk d s)) (snd (scrape_day net rnd lk d s)))
    as [u t] eqn:E.
  unfold bind. pose proof (IH t HL') as H.
  destruct (mapM (Rescrape.rescrape_one net rnd lk) L t) as [us t2]. exact H.
Qed.

(** [rescrape_failed_days] goes through the dates [find_failed_days]
    reports, in its (sorted) order, and for each one parses it, runs
    [scrape_day] on it once (its first request being that day's
    scoreboard) and hands the result to [append_to_master]; it does
    nothing else. Without a log, or with no failure line, the state is
    left exactly as it was. *)
Theorem rescrape_failed_days_runs net rnd lk content s :
  rescrape_chain net rnd lk (Rescrape.find_failed_days content) s
                 (snd (Rescrape.rescrape_failed_days net rnd lk content s)).
Proof.
  assert (HF : Forall (fun ds => exists d, Rescrape.strptime_ymd ds = Some d)
                      (Rescrape.find_failed_days content))
    by (apply Forall_forall; intros ds; apply failed_day_parses).
  unfold Rescrape.rescrape_failed_days.
  destruct (Rescrape.find_failed_days content) as [|ds rest] eqn:E; [reflexivity|].
  unfold bind. pose proof (mapM_rescrape_chain net rnd lk (ds :: rest) s HF) as H.
  destruct (mapM (Rescrape.rescrape_one net rnd lk) (ds :: rest) s) as [us t]. exact H.
Qed.
